(** * Phase gate of the Spec Kit orchestrator

    A shallow embedding of the shell scripts that implement the phase gate:

    - [orchestrator/hooks/lint_phase.sh] (artifact validation, severity
      scan, mitigation lookup, Node and Rust validator steps), and the
      copy of the same script that has the validator steps only,
    - [orchestrator/plugins.runtime.sh] (the plugin invoker, two modes),
    - [scripts/audit-js.sh], [scripts/audit-rust.sh],
      [scripts/audit-python.sh], [scripts/python-unit-help.sh],
    - [ci/run_phase_checks.sh] (runtime, then hook).

    Modelling conventions.

    - A workspace is a finite map from paths to the text of the regular
      file stored there; directories are implicit, so [mkdir -p] changes
      nothing.  The validator commands and the audit commands are taken
      not to touch the files the gate reads.
    - Text is a string of bytes.  [grep] is GNU grep in the C locale: it
      works line by line, [-i] folds ASCII letters and [\|] is
      alternation.  A file that holds a NUL byte is binary input, and
      [grep] without [-a] takes that byte as the end of a line: [.] is any
      byte of the line but NUL, so no match of [.*] runs across one.
    - An exit status is an integer in [0, 255]; what an external command
      reports is reduced modulo 256, as the operating system does.
    - A shell function or script is a function from its state to a result
      and a new state.  The hook threads [EXIT_CODE] and what it printed;
      [set -e] never fires in it, every command that can fail being the
      left side of [||] or the test of [if].  The runtime scripts thread
      the files; there [set -e] ends the script at the first failure.
    - Arrays follow bash 4.4 and later, where expanding an empty array
      under [set -u] is not an error.
    - Three scripts the runtime calls by path are not part of the sources
      at hand ([scripts/generate-threat-model.sh], [scripts/merge-audits.sh],
      [scripts/generate-compliance-report.sh]); they are fields of the host. *)

From Stdlib Require Import ZArith Ascii String List Bool Lia DecimalString.
From stdpp Require Import base option strings gmap list fin_maps.

Local Open Scope string_scope.
Local Open Scope list_scope.
Local Open Scope Z_scope.

(** ** Text: the part of [grep] the hook relies on *)

Module Text.

(** ASCII case folding, as [grep -i] does in the C locale. *)
Definition lower_ascii (c : ascii) : ascii :=
  let n := nat_of_ascii c in
  if (Nat.leb 65 n && Nat.leb n 90)%bool then ascii_of_nat (n + 32) else c.

Fixpoint lower (s : string) : string :=
  match s with
  | EmptyString => EmptyString
  | String c s' => String (lower_ascii c) (lower s')
  end.

(** [starts_with p s]: the pattern [p] matches at the head of [s]. *)
Fixpoint starts_with (p s : string) : bool :=
  match p, s with
  | EmptyString, _ => true
  | String _ _, EmptyString => false
  | String a p', String b s' => (Ascii.eqb a b && starts_with p' s')%bool
  end.

(** [skip n s]: [s] without its first [n] bytes. *)
Fixpoint skip (n : nat) (s : string) : string :=
  match n, s with
  | O, _ => s
  | S _, EmptyString => EmptyString
  | S n', String _ s' => skip n' s'
  end.

(** A fixed pattern occurs somewhere in [s]. *)
Fixpoint contains (p s : string) : bool :=
  (starts_with p s ||
   match s with
   | EmptyString => false
   | String _ s' => contains p s'
   end)%bool.

(** The NUL byte.  It makes the file binary input to [grep], which then
    (without [-a]) ends a line at it as at a line feed. *)
Definition NUL : ascii := ascii_of_nat 0.

(** [.] on a byte of a line: any byte but NUL. *)
Definition dot (c : ascii) : bool := negb (Ascii.eqb c NUL).

(** The regular expression [.*q] at the head of [s]: [q] occurs after a
    run of bytes that [.] matches. *)
Fixpoint dots_then (q s : string) : bool :=
  (starts_with q s ||
   match s with
   | EmptyString => false
   | String c s' => dot c && dots_then q s'
   end)%bool.

(** The regular expression [p.*q] on one line: [p] occurs, and [q] occurs
    at or after the end of that occurrence with no NUL byte in between. *)
Fixpoint then_contains (p q s : string) : bool :=
  ((starts_with p s && dots_then q (skip (String.length p) s)) ||
   match s with
   | EmptyString => false
   | String _ s' => then_contains p q s'
   end)%bool.

(** The line feed that ends a line. *)
Definition LF : ascii := ascii_of_nat 10.

(** The lines of a text; [grep] also takes an unterminated last line. *)
Fixpoint lines_acc (cur : string) (s : string) : list string :=
  match s with
  | EmptyString => [cur]
  | String c s' =>
      if Ascii.eqb c LF then cur :: lines_acc EmptyString s'
      else lines_acc (cur +:+ String c EmptyString) s'
  end.

Definition lines (s : string) : list string := lines_acc EmptyString s.

(** [grep -q PATTERN file] for a fixed string: some line contains it.  The
    two strings the hook looks for hold no NUL byte, so a match never
    runs across one. *)
Definition grep_q (pat : string) (text : string) : bool :=
  existsb (contains pat) (lines text).

(** One line against ["severity.*critical\|severity.*high"] under [-i]. *)
Definition severity_line (line : string) : bool :=
  let l := lower line in
  (then_contains "severity" "critical" l || then_contains "severity" "high" l)%bool.

(** [grep -qi "severity.*critical\|severity.*high" file]: some line has a
    match.  The two words of a match and the bytes between them hold no
    NUL byte, which is what ending the line at a NUL byte comes to. *)
Definition grep_qi_severity (text : string) : bool :=
  existsb severity_line (lines text).

End Text.

(** ** Workspace, host and effects *)

(** Regular files by path. *)
Abbreviation FS := (gmap string string).

(** [[[ -f path ]]] *)
Definition is_file (fs : FS) (path : string) : bool :=
  match fs !! path with
  | Some _ => true
  | None => false
  end.

(** [[[ -f path ]] && grep -q pat path 2>/dev/null] *)
Definition file_has (fs : FS) (path pat : string) : bool :=
  match fs !! path with
  | Some text => Text.grep_q pat text
  | None => false
  end.

(** [: > path] *)
Definition truncate (path : string) (fs : FS) : FS := <[path := ""]> fs.

(** [printf text >> path], which creates the file when it is not there. *)
Definition append_to (path text : string) (fs : FS) : FS :=
  <[path := default "" (fs !! path) +:+ text]> fs.

(** The validator and audit commands the scripts start.  What a script
    does with [grep], [mkdir], [mv] and the like is part of its own
    semantics here and leaves no record of a command. *)
Inductive tool : Type :=
  | PnpmRunLint | NpmRunLint
  | PnpmExecPrettier | NpxPrettier
  | PnpmRunTypecheck | NpmRunTypecheck
  | PnpmRunTest | NpmRunTest
  | CargoFmt | CargoClippy | CargoTest
  | PnpmAudit | NpmAudit | CargoAudit | PipAudit.

(** What a run leaves behind for the operator to see. *)
Inductive event : Type :=
  | Out (line : string)
  | Err (line : string)
  | Exec (t : tool) (status : Z).

(** Scripts of the repository that the runtime calls by path. *)
Abbreviation script := (FS → Z * FS).

(** The machine the scripts run on: how each external command ends, which
    commands [command -v] finds, and the three producer scripts. *)
Record Host : Type := {
  tool_exit : tool → Z;
  on_path : string → bool;
  generate_threat_model : script;
  merge_audits : script;
  generate_compliance_report : script
}.

(** An exit status as the parent shell reads it. *)
Definition wait_status (raw : Z) : Z := raw mod 256.

Definition status_of (h : Host) (t : tool) : Z := wait_status (tool_exit h t).

(** Decimal text of a status, for [$EXIT_CODE] inside a message. *)
Definition show_status (c : Z) : string := NilZero.string_of_int (Z.to_int c).

(** *** The state of one hook process *)

Record hook_state : Type := {
  EXIT_CODE : Z;
  emitted : list event
}.

Definition M (A : Type) : Type := hook_state → A * hook_state.

#[global] Instance hook_ret : MRet M := fun A (a : A) s => (a, s).

#[global] Instance hook_bind : MBind M :=
  fun A B (k : A → M B) (m : M A) s => let '(a, s') := m s in k a s'.

Definition emit (e : event) : M unit :=
  fun s => (tt, {| EXIT_CODE := EXIT_CODE s; emitted := emitted s ++ [e] |}).

Definition echo (line : string) : M unit := emit (Out line).

(** [EXIT_CODE=$?] *)
Definition set_EXIT_CODE (c : Z) : M unit :=
  fun s => (tt, {| EXIT_CODE := c; emitted := emitted s |}).

Definition get_EXIT_CODE : M Z := fun s => (EXIT_CODE s, s).

(** Start an external command and wait for it. *)
Definition exec (h : Host) (t : tool) : M Z :=
  let c := status_of h t in (emit (Exec t c) ;; mret c).

(** [a || b]: [b] runs only when [a] fails; [$?] is that of the last one run. *)
Definition or_else (a b : M Z) : M Z :=
  c ← a ; if c =? 0 then mret 0 else b.

(** [a || EXIT_CODE=$?] *)
Definition or_record (a : M Z) : M unit :=
  c ← a ; if c =? 0 then mret tt else set_EXIT_CODE c.

Fixpoint for_each {A} (l : list A) (body : A → M unit) : M unit :=
  match l with
  | [] => mret tt
  | x :: l' => body x ;; for_each l' body
  end.

(** ** The hook: [orchestrator/hooks/lint_phase.sh] *)

Module Hook.

(** [if [[ ! -f path ]]; then missing_artifacts+=(path); fi] *)
Definition note_missing (fs : FS) (path : string) (missing_artifacts : list string)
  : list string :=
  if is_file fs path then missing_artifacts else missing_artifacts ++ [path].

(** The [case "$phase"] that fills [missing_artifacts]. *)
Definition missing_artifacts_for (fs : FS) (phase : string) : list string :=
  if String.eqb phase "spec" then
    note_missing fs "reports/security/spec-findings.md" []
  else if String.eqb phase "plan" then
    note_missing fs "reports/security/plan-scan.md" []
  else if String.eqb phase "tasks" then
    if (is_file fs "requirements.txt" || is_file fs "pyproject.toml")%bool then
      note_missing fs "reports/tests/tasks-unit-help.md" []
    else []
  else if String.eqb phase "implement" then
    note_missing fs "reports/security/implement-scan.md" []
  else if String.eqb phase "analyze" then
    note_missing fs "reports/compliance/analyze-compliance.md"
      (note_missing fs "reports/security/analyze-deltas.md" [])
  else [].

(** The [case "$phase"] that fills [report_files]. *)
Definition report_files_for (phase : string) : list string :=
  if String.eqb phase "spec" then ["reports/security/spec-findings.md"]
  else if String.eqb phase "plan" then ["reports/security/plan-scan.md"]
  else if String.eqb phase "implement" then ["reports/security/implement-scan.md"]
  else if String.eqb phase "analyze" then ["reports/security/analyze-deltas.md"]
  else [].

(** The [for report in ...] loop; [return 2] leaves it at once. *)
Fixpoint scan_reports (fs : FS) (report_files : list string) : M Z :=
  match report_files with
  | [] => mret 0
  | report :: rest =>
      match fs !! report with
      | Some text =>
          if Text.grep_qi_severity text then
            echo ("  ⚠️  CRITICAL/HIGH findings detected in " +:+ report) ;;
            if file_has fs "plans/plan.md" "Security Mitigations" then
              echo "  ℹ️  Mitigation plan found in plans/plan.md" ;;
              scan_reports fs rest
            else if file_has fs "DECISIONS.md" "Security Finding Waiver" then
              echo "  ℹ️  Security waiver found in DECISIONS.md" ;;
              scan_reports fs rest
            else
              echo "  ❌ No mitigation plan or waiver found" ;;
              echo "     Required: Mitigation in plans/plan.md OR waiver in DECISIONS.md" ;;
              mret 2
          else scan_reports fs rest
      | None => scan_reports fs rest
      end
  end.

Definition check_security_findings (fs : FS) (phase : string) : M Z :=
  scan_reports fs (report_files_for phase).

Definition validate_plugin_artifacts (fs : FS) (phase : string) : M Z :=
  echo ("→ Validating plugin artifacts for phase: " +:+ phase) ;;
  let missing_artifacts := missing_artifacts_for fs phase in
  if (0 <? length missing_artifacts)%nat then
    echo "  ❌ Missing required plugin artifacts:" ;;
    for_each missing_artifacts (fun artifact => echo ("     - " +:+ artifact)) ;;
    mret 1
  else
    artifact_exit_code ← check_security_findings fs phase ;
    (if artifact_exit_code =? 0 then echo "  ✅ Plugin artifacts validated"
     else mret tt) ;;
    mret artifact_exit_code.

(** [[[ "$PHASE" =~ ^(spec|plan|tasks|implement|analyze)$ ]]] *)
Definition gated_phase (phase : string) : bool :=
  (String.eqb phase "spec" || String.eqb phase "plan" || String.eqb phase "tasks"
   || String.eqb phase "implement" || String.eqb phase "analyze")%bool.

(** The Node/TypeScript block. *)
Definition node_checks (h : Host) (fs : FS) (phase : string) : M unit :=
  if is_file fs "package.json" then
    echo "→ Node/TypeScript workspace detected" ;;
    if String.eqb phase "implement" then
      echo "  • Running ESLint..." ;;
      or_record (or_else (exec h PnpmRunLint) (exec h NpmRunLint)) ;;
      echo "  • Running Prettier..." ;;
      or_record (or_else (exec h PnpmExecPrettier) (exec h NpxPrettier)) ;;
      echo "  • Running TypeScript..." ;;
      or_record (or_else (exec h PnpmRunTypecheck) (exec h NpmRunTypecheck)) ;;
      echo "  • Running tests..." ;;
      or_record (or_else (exec h PnpmRunTest) (exec h NpmRunTest))
    else
      echo ("  ℹ Phase '" +:+ phase +:+ "' - skipping Node checks")
  else mret tt.

(** The Rust block. *)
Definition rust_checks (h : Host) (fs : FS) (phase : string) : M unit :=
  if is_file fs "Cargo.toml" then
    echo "→ Rust workspace detected" ;;
    if String.eqb phase "implement" then
      echo "  • Running cargo fmt check..." ;;
      or_record (exec h CargoFmt) ;;
      echo "  • Running cargo clippy..." ;;
      or_record (exec h CargoClippy) ;;
      echo "  • Running cargo test..." ;;
      or_record (exec h CargoTest)
    else
      echo ("  ℹ Phase '" +:+ phase +:+ "' - skipping Rust checks")
  else mret tt.

(** The last lines of the script: the status the process ends with. *)
Definition finish : M Z :=
  c ← get_EXIT_CODE ;
  if negb (c =? 0) then
    echo ("❌ Lint phase failed with code: " +:+ show_status c) ;;
    mret (wait_status c)
  else
    echo "✅ Lint phase passed" ;;
    mret 0.

(** [PHASE="${1:-implement}"]: also an empty argument gives the default. *)
Definition phase_of_argument (arg : option string) : string :=
  match arg with
  | Some p => if String.eqb p "" then "implement" else p
  | None => "implement"
  end.

(** The whole script, from [EXIT_CODE=0] to [exit]. *)
Definition main (h : Host) (fs : FS) (arg : option string) : M Z :=
  let PHASE := phase_of_argument arg in
  echo ("🔍 Running lint_phase hook for: " +:+ PHASE) ;;
  (if gated_phase PHASE then or_record (validate_plugin_artifacts fs PHASE)
   else mret tt) ;;
  node_checks h fs PHASE ;;
  rust_checks h fs PHASE ;;
  finish.

(** The other copy of the hook in the sources: the same script without
    the call of [validate_plugin_artifacts] (and with [.] as the target of
    prettier, which the command names here do not tell apart). *)
Definition main_plain (h : Host) (fs : FS) (arg : option string) : M Z :=
  let PHASE := phase_of_argument arg in
  echo ("🔍 Running lint_phase hook for: " +:+ PHASE) ;;
  node_checks h fs PHASE ;;
  rust_checks h fs PHASE ;;
  finish.

Definition start : hook_state := {| EXIT_CODE := 0; emitted := [] |}.

(** Exit status and everything printed or started, for one invocation. *)
Definition lint_phase (h : Host) (fs : FS) (arg : option string) : Z * list event :=
  let '(c, s) := main h fs arg start in (c, emitted s).

(** The same for the script without artifact validation. *)
Definition lint_phase_plain (h : Host) (fs : FS) (arg : option string)
  : Z * list event :=
  let '(c, s) := main_plain h fs arg start in (c, emitted s).

Definition exit_code (h : Host) (fs : FS) (arg : option string) : Z :=
  fst (lint_phase h fs arg).

Definition output (h : Host) (fs : FS) (arg : option string) : list event :=
  snd (lint_phase h fs arg).

End Hook.

(** ** The plugin invoker: [orchestrator/plugins.runtime.sh] and its scripts *)

Module Runtime.

(** What a script sees and changes: the files, and what it printed or
    started so far. *)
Record world : Type := {
  files : FS;
  journal : list event
}.

(** A shell command: exit status and the world it leaves. *)
Definition cmd : Type := world → Z * world.

(** Two commands in a row under [set -e]: a failure ends the script. *)
Definition and_then (a b : cmd) : cmd :=
  fun w => let '(c, w') := a w in if c =? 0 then b w' else (c, w').

Infix ">>>" := and_then (at level 62, left associativity).

Definition record_event (e : event) : cmd :=
  fun w => (0, {| files := files w; journal := journal w ++ [e] |}).

(** A redirection that rewrites the files. *)
Definition write (f : FS → FS) : cmd :=
  fun w => (0, {| files := f (files w); journal := journal w |}).

(** [exit c] (a non-zero [c] also ends the caller under [set -e]). *)
Definition exit_with (c : Z) : cmd := fun w => (c, w).

(** [if [[ test ]]; then a; else b; fi], the test being on the files. *)
Definition when_ (test : FS → bool) (a b : cmd) : cmd :=
  fun w => if test (files w) then a w else b w.

Definition run_tool (h : Host) (t : tool) : cmd :=
  fun w => let c := status_of h t in
           (c, {| files := files w; journal := journal w ++ [Exec t c] |}).

(** One of the producer scripts that come with the host. *)
Definition call (s : script) : cmd :=
  fun w => let '(c, fs') := s (files w) in
           (wait_status c, {| files := fs'; journal := journal w |}).

Definition nl : string := String Text.LF EmptyString.

(** [echo text >> path] *)
Definition echo_to (path text : string) : cmd := write (append_to path (text +:+ nl)).

(** [a || true >> path]: the output of [a] is not redirected; when [a]
    fails, [true] opens [path] for appending and writes nothing. *)
Definition or_true_to (a : cmd) (path : string) : cmd :=
  fun w => let '(c, w') := a w in
           if c =? 0 then (0, w') else write (append_to path "") w'.

Definition outfile : string := "reports/security/plan-scan.md".

(** [$PKG_MGR audit --json] *)
Definition audit_of (PKG_MGR : string) : tool :=
  if String.eqb PKG_MGR "pnpm" then PnpmAudit else NpmAudit.

(** [scripts/audit-js.sh] *)
Definition audit_js (h : Host) : cmd :=
  write (truncate outfile) >>>
  let PKG_MGR := if on_path h "pnpm" then "pnpm"
                 else if on_path h "npm" then "npm" else "" in
  echo_to outfile "# Plan Scan – JS/TS" >>>
  (if negb (String.eqb PKG_MGR "") then
     when_ (fun fs => String.eqb PKG_MGR "pnpm" && is_file fs "pnpm-workspace.yaml")%bool
       (echo_to outfile "(workspace mode)" >>>
        or_true_to (run_tool h PnpmAudit) outfile)
       (or_true_to (run_tool h (audit_of PKG_MGR)) outfile)
   else echo_to outfile "- Package manager not found; skipping JS audit") >>>
  record_event (Err ("[audit-js] Wrote " +:+ outfile)).

(** [scripts/audit-rust.sh] *)
Definition audit_rust (h : Host) : cmd :=
  echo_to outfile (nl +:+ "# Plan Scan – Rust" +:+ nl) >>>
  if negb (on_path h "cargo") then
    echo_to outfile "- cargo not found; skipping Rust audit" >>> exit_with 0
  else
    (if negb (on_path h "cargo-audit") then
       echo_to outfile "(tip) Install cargo-audit: cargo install cargo-audit"
     else or_true_to (run_tool h CargoAudit) outfile) >>>
    record_event (Err ("[audit-rust] Appended to " +:+ outfile)).

(** [scripts/audit-python.sh] *)
Definition audit_python (h : Host) : cmd :=
  echo_to outfile (nl +:+ "# Plan Scan – Python" +:+ nl) >>>
  when_ (fun fs => negb (is_file fs "pyproject.toml") && negb (is_file fs "requirements.txt"))%bool
    (echo_to outfile "- No Python project detected; skipping" >>> exit_with 0)
    ((if negb (on_path h "pip-audit") then
        echo_to outfile "(tip) Install pip-audit: pip install pip-audit"
      else or_true_to (run_tool h PipAudit) outfile) >>>
     record_event (Err ("[audit-python] Appended to " +:+ outfile))).

(** [scripts/python-unit-help.sh]: the here-document replaces the file. *)
Definition unit_help_text : string :=
  "# Python Unit Testing Help" +:+ nl +:+ nl +:+
  "- Suggested structure: `tests/` with `test_*.py`" +:+ nl +:+
  "- Coverage goal: >= 80%" +:+ nl +:+
  "- Commands:" +:+ nl +:+
  "  - `pytest -q`" +:+ nl +:+
  "  - `pytest --maxfail=1 --disable-warnings -q`" +:+ nl +:+
  "- Add CI target to enforce coverage threshold." +:+ nl +:+ nl.

Definition python_unit_help : cmd :=
  write (fun fs => <["reports/tests/tasks-unit-help.md" := unit_help_text]> fs) >>>
  record_event (Err "[python-unit-help] Wrote reports/tests/tasks-unit-help.md").

(** [log] *)
Definition log (msg : string) : cmd := record_event (Err ("[plugins.runtime] " +:+ msg)).

(** The stub a [run_claude_*] function leaves at [path]:
    [: > path || true], then two [printf ... >> path]. *)
Definition claude_stub (path title : string) : cmd :=
  write (truncate path) >>>
  write (append_to path (title +:+ nl +:+ nl)) >>>
  write (append_to path ("_Claude plugins should append their outputs here._" +:+ nl)).

Definition run_claude_spec : cmd :=
  log "Expecting Claude to run: /plugin run security-guidance (+ backend-api-security if APIs)" >>>
  claude_stub "reports/security/spec-findings.md" "# Spec Findings (from Claude plugins)".

Definition run_claude_plan : cmd :=
  claude_stub "reports/security/plan-scan.md" "# Plan Scan (from Claude plugins)".

Definition run_claude_tasks : cmd :=
  claude_stub "reports/tests/tasks-unit-help.md"
              "# Python Unit Testing Help (from Claude plugins)".

Definition run_claude_implement : cmd :=
  claude_stub "reports/security/implement-scan.md" "# Implement Scan (from Claude plugins)".

Definition run_claude_analyze : cmd :=
  claude_stub "reports/compliance/analyze-compliance.md"
              "# Compliance Report (from Claude plugins)".

(** [mv -f src dst] *)
Definition mv_f (src dst : string) : cmd :=
  fun w =>
    match files w !! src with
    | Some text =>
        (0, {| files := <[dst := text]> (delete src (files w)); journal := journal w |})
    | None =>
        (1, {| files := files w;
               journal := journal w ++
                 [Err ("mv: cannot stat '" +:+ src +:+ "': No such file or directory")] |})
    end.

Definition run_cli_spec (h : Host) : cmd := call (generate_threat_model h).

Definition run_cli_plan (h : Host) : cmd :=
  audit_js h >>> audit_rust h >>> audit_python h >>> call (merge_audits h).

Definition run_cli_tasks : cmd :=
  when_ (fun fs => is_file fs "pyproject.toml" || is_file fs "requirements.txt")%bool
    python_unit_help
    (record_event (Err "[plugins.runtime] No Python detected; skipping tasks unit help")).

Definition run_cli_implement (h : Host) : cmd :=
  run_cli_plan h >>>
  mv_f "reports/security/plan-scan.md" "reports/security/implement-scan.md".

Definition run_cli_analyze (h : Host) : cmd := call (generate_compliance_report h).

Definition unknown_phase (PHASE : string) : cmd :=
  record_event (Err ("Unknown phase: " +:+ PHASE)) >>> exit_with 1.

(** [MODE="${ORCHESTRATOR_PLUGIN_MODE:-cli}"] *)
Definition mode_of (var : option string) : string :=
  match var with
  | Some m => if String.eqb m "" then "cli" else m
  | None => "cli"
  end.

(** The script: [mkdir -p] leaves the files as they are; then the two
    [case] statements. *)
Definition plugins_runtime (h : Host) (var : option string) (arg : option string) : cmd :=
  let PHASE := default "" arg in
  let MODE := mode_of var in
  if String.eqb MODE "claude" then
    if String.eqb PHASE "spec" then run_claude_spec
    else if String.eqb PHASE "plan" then run_claude_plan
    else if String.eqb PHASE "tasks" then run_claude_tasks
    else if String.eqb PHASE "implement" then run_claude_implement
    else if String.eqb PHASE "analyze" then run_claude_analyze
    else unknown_phase PHASE
  else
    if String.eqb PHASE "spec" then run_cli_spec h
    else if String.eqb PHASE "plan" then run_cli_plan h
    else if String.eqb PHASE "tasks" then run_cli_tasks
    else if String.eqb PHASE "implement" then run_cli_implement h
    else if String.eqb PHASE "analyze" then run_cli_analyze h
    else unknown_phase PHASE.

(** Files after the invoker ran on [fs]. *)
Definition files_after (h : Host) (var arg : option string) (fs : FS) : FS :=
  files (snd (plugins_runtime h var arg {| files := fs; journal := [] |})).

End Runtime.

(** ** The CI entry point: [ci/run_phase_checks.sh] *)

Module CI.

Import Runtime.

Definition usage : string :=
  "Usage: ci/run_phase_checks.sh <spec|plan|tasks|implement|analyze>".

Definition run_phase_checks (h : Host) (var : option string) (fs : FS)
    (arg : option string) : Z * world :=
  let PHASE := default "" arg in
  if String.eqb PHASE "" then
    (2, {| files := fs; journal := [Err usage] |})
  else
    let MODE := mode_of var in
    (* bash orchestrator/plugins.runtime.sh "$PHASE" || true *)
    let w1 := snd (plugins_runtime h (Some MODE) (Some PHASE)
                     {| files := fs; journal := [] |}) in
    (* bash orchestrator/hooks/lint_phase.sh "$PHASE" *)
    let '(c, evs) := Hook.lint_phase h (files w1) (Some PHASE) in
    let w2 := {| files := files w1; journal := journal w1 ++ evs |} in
    if c =? 0 then
      (0, {| files := files w2;
             journal := journal w2 ++ [Out ("[ci] Phase " +:+ PHASE +:+ " OK")] |})
    else (c, w2).

End CI.

(** ** The audit scripts in a row, and what the invoker writes *)

(** [scripts/audit-js.sh; scripts/audit-rust.sh; scripts/audit-python.sh]:
    [run_cli_plan] up to the call of [scripts/merge-audits.sh]. *)
Definition audits (h : Host) : Runtime.cmd :=
  Runtime.and_then (Runtime.and_then (Runtime.audit_js h) (Runtime.audit_rust h))
                   (Runtime.audit_python h).

(** What [scripts/audit-js.sh] leaves in the report. *)
Definition js_section (h : Host) (fs : FS) : string :=
  ("# Plan Scan – JS/TS" +:+ Runtime.nl) +:+
  (if on_path h "pnpm" then
     if is_file fs "pnpm-workspace.yaml" then "(workspace mode)" +:+ Runtime.nl else ""
   else if on_path h "npm" then ""
   else "- Package manager not found; skipping JS audit" +:+ Runtime.nl).

(** What [scripts/audit-rust.sh] adds to the report. *)
Definition rust_section (h : Host) : string :=
  ((Runtime.nl +:+ "# Plan Scan – Rust" +:+ Runtime.nl) +:+ Runtime.nl) +:+
  (if on_path h "cargo" then
     if on_path h "cargo-audit" then ""
     else "(tip) Install cargo-audit: cargo install cargo-audit" +:+ Runtime.nl
   else "- cargo not found; skipping Rust audit" +:+ Runtime.nl).

(** What [scripts/audit-python.sh] adds to the report. *)
Definition python_section (h : Host) (fs : FS) : string :=
  ((Runtime.nl +:+ "# Plan Scan – Python" +:+ Runtime.nl) +:+ Runtime.nl) +:+
  (if (negb (is_file fs "pyproject.toml") && negb (is_file fs "requirements.txt"))%bool
   then "- No Python project detected; skipping" +:+ Runtime.nl
   else if on_path h "pip-audit" then ""
   else "(tip) Install pip-audit: pip install pip-audit" +:+ Runtime.nl).

(** The functions [run_claude_*]: phase, file written, title line. *)
Definition claude_reports : list (string * string * string) := [
  ("spec", "reports/security/spec-findings.md", "# Spec Findings (from Claude plugins)");
  ("plan", "reports/security/plan-scan.md", "# Plan Scan (from Claude plugins)");
  ("tasks", "reports/tests/tasks-unit-help.md",
   "# Python Unit Testing Help (from Claude plugins)");
  ("implement", "reports/security/implement-scan.md",
   "# Implement Scan (from Claude plugins)");
  ("analyze", "reports/compliance/analyze-compliance.md",
   "# Compliance Report (from Claude plugins)") ].

(** The placeholder under a title. *)
Definition stub_text (title : string) : string :=
  (title +:+ Runtime.nl +:+ Runtime.nl) +:+
  ("_Claude plugins should append their outputs here._" +:+ Runtime.nl).

(** On the files [fs], whatever was printed before, the command ends with
    [status] and leaves the files [fs']. *)
Definition yields (c : Runtime.cmd) (fs : FS) (status : Z) (fs' : FS) : Prop :=
  ∀ j, ∃ j', c {| Runtime.files := fs; Runtime.journal := j |}
             = (status, {| Runtime.files := fs'; Runtime.journal := j' |}).

(** ** Reading a run of the invoker *)

(** A producer script that removes no file. *)
Definition preserves (s : script) : Prop :=
  ∀ fs p, is_Some (fs !! p) → is_Some ((s fs).2 !! p).

(** A command after which every file outside [except] that was there is
    still there. *)
Definition keeps (except : list string) (c : Runtime.cmd) : Prop :=
  ∀ w p, p ∉ except → is_Some (Runtime.files w !! p) →
         is_Some (Runtime.files (c w).2 !! p).

(** ** Reading a run *)

(** What [cmd || EXIT_CODE=$?] does to [EXIT_CODE] when [cmd] ends with [c]. *)
Definition record (c e : Z) : Z := if c =? 0 then e else c.

(** [EXIT_CODE] after a sequence of recorded steps, from 0: the status of
    the last step that failed. *)
Definition last_failure (cs : list Z) : Z := fold_left (fun e c => record c e) cs 0.

(** Status of [a || b]. *)
Definition fallback_status (h : Host) (a b : tool) : Z :=
  if status_of h a =? 0 then 0 else status_of h b.

(** Commands started by [a || b]. *)
Definition fallback_tools (h : Host) (a b : tool) : list tool :=
  a :: (if status_of h a =? 0 then [] else [b]).

(** The four Node steps and the three Rust steps, in script order. *)
Definition node_statuses (h : Host) : list Z :=
  [ fallback_status h PnpmRunLint NpmRunLint;
    fallback_status h PnpmExecPrettier NpxPrettier;
    fallback_status h PnpmRunTypecheck NpmRunTypecheck;
    fallback_status h PnpmRunTest NpmRunTest ].

Definition rust_statuses (h : Host) : list Z :=
  [ status_of h CargoFmt; status_of h CargoClippy; status_of h CargoTest ].

Definition node_runs (fs : FS) (phase : string) : bool :=
  (is_file fs "package.json" && String.eqb phase "implement")%bool.

Definition rust_runs (fs : FS) (phase : string) : bool :=
  (is_file fs "Cargo.toml" && String.eqb phase "implement")%bool.

Definition validator_statuses (h : Host) (fs : FS) (phase : string) : list Z :=
  (if node_runs fs phase then node_statuses h else []) ++
  (if rust_runs fs phase then rust_statuses h else []).

(** Commands a run of the hook starts, in order. *)
Definition node_tools (h : Host) : list tool :=
  fallback_tools h PnpmRunLint NpmRunLint ++
  fallback_tools h PnpmExecPrettier NpxPrettier ++
  fallback_tools h PnpmRunTypecheck NpmRunTypecheck ++
  fallback_tools h PnpmRunTest NpmRunTest.

Definition rust_tools : list tool := [CargoFmt; CargoClippy; CargoTest].

Definition validator_tools (h : Host) (fs : FS) (phase : string) : list tool :=
  (if node_runs fs phase then node_tools h else []) ++
  (if rust_runs fs phase then rust_tools else []).

(** The validator and audit commands among the events of a run. *)
Definition started (evs : list event) : list tool :=
  flat_map (fun e => match e with Exec t _ => [t] | _ => [] end) evs.

(** [m] returns [a], passes the statuses [cs] through [EXIT_CODE=$?] in
    that order, and emits [evs], from whatever state it starts in. *)
Definition runs {A} (m : M A) (a : A) (cs : list Z) (evs : list event) : Prop :=
  ∀ s, m s = (a, {| EXIT_CODE := fold_left (fun e c => record c e) cs (EXIT_CODE s);
                    emitted := emitted s ++ evs |}).

(** A computation that only prints and returns [a]: no status recorded,
    no command started. *)
Definition prints {A} (m : M A) (a : A) : Prop :=
  ∃ evs, runs m a [] evs ∧ started evs = [].

(** A block of the script that records the statuses [cs] and starts the
    commands [ts]. *)
Definition block (m : M unit) (cs : list Z) (ts : list tool) : Prop :=
  ∃ evs, runs m tt cs evs ∧ started evs = ts.

(** The report at [path] is there and the severity scan matches it. *)
Definition has_blocking_finding (fs : FS) (path : string) : bool :=
  match fs !! path with
  | Some text => Text.grep_qi_severity text
  | None => false
  end.

(** One of the two documents the hook accepts is there with its marker. *)
Definition mitigation_on_file (fs : FS) : bool :=
  (file_has fs "plans/plan.md" "Security Mitigations"
   || file_has fs "DECISIONS.md" "Security Finding Waiver")%bool.

(** The outcome of the severity loop over [report_files]. *)
Definition findings_verdict (fs : FS) (report_files : list string) : Z :=
  if (existsb (has_blocking_finding fs) report_files && negb (mitigation_on_file fs))%bool
  then 2 else 0.

(** The outcome of artifact validation. *)
Definition gate_verdict (fs : FS) (phase : string) : Z :=
  if (0 <? length (Hook.missing_artifacts_for fs phase))%nat then 1
  else findings_verdict fs (Hook.report_files_for phase).

(** What [validate_plugin_artifacts] returns and prints. *)
Definition gate_status (fs : FS) (phase : string) : Z :=
  fst (Hook.validate_plugin_artifacts fs phase Hook.start).

Definition gate_events (fs : FS) (phase : string) : list event :=
  emitted (snd (Hook.validate_plugin_artifacts fs phase Hook.start)).

(** What [check_security_findings] returns. *)
Definition findings_status (fs : FS) (phase : string) : Z :=
  fst (Hook.check_security_findings fs phase Hook.start).

(** Every recorded step of one run of the hook, in order. *)
Definition step_statuses (h : Host) (fs : FS) (phase : string) : list Z :=
  (if Hook.gated_phase phase then [gate_status fs phase] else []) ++
  validator_statuses h fs phase.

(** All validator steps of the run succeed (none runs outside [implement]). *)
Definition validators_pass (h : Host) (fs : FS) (phase : string) : Prop :=
  Forall (fun c => c = 0) (validator_statuses h fs phase).

(** *** Text, declaratively *)

(** [p] occurs in [s]. *)
Definition occurs (p s : string) : Prop := ∃ a b, s = a +:+ p +:+ b.

(** [s] holds a NUL byte. *)
Definition holds_nul (s : string) : Prop := occurs (String Text.NUL "") s.

(** [p] occurs in [s] and [q] occurs after it, with no NUL byte in
    between: a match of [p.*q]. *)
Definition occurs_then (p q s : string) : Prop :=
  ∃ a b c, s = a +:+ p +:+ b +:+ q +:+ c ∧ ¬ holds_nul b.

(** A line that the severity scan takes as a blocking finding. *)
Definition blocking_line (line : string) : Prop :=
  occurs_then "severity" "critical" (Text.lower line) ∨
  occurs_then "severity" "high" (Text.lower line).

(** The report at [path] has a blocking line. *)
Definition blocking_report (fs : FS) (path : string) : Prop :=
  ∃ text line, fs !! path = Some text ∧ line ∈ Text.lines text ∧ blocking_line line.

(** Some line of the file at [path] contains [pat]. *)
Definition documented (fs : FS) (path pat : string) : Prop :=
  ∃ text line, fs !! path = Some text ∧ line ∈ Text.lines text ∧ occurs pat line.

(** ** The artifact table of the specification *)

Module Policy.

(** An artifact requirement in the words of the specification's data
    model: a path, the phase it belongs to, and an optional predicate on
    the workspace; without a predicate the artifact is always mandatory. *)
Record ArtifactRequirement : Type := {
  req_phase : string;
  req_path : string;
  req_predicate : option (FS → bool)
}.

(** A Python project manifest is present. *)
Definition python_workspace (fs : FS) : bool :=
  (is_file fs "requirements.txt" || is_file fs "pyproject.toml")%bool.

(** The persisted state layout, phase by phase. *)
Definition requirements : list ArtifactRequirement := [
  {| req_phase := "spec"; req_path := "reports/security/spec-findings.md";
     req_predicate := None |};
  {| req_phase := "plan"; req_path := "reports/security/plan-scan.md";
     req_predicate := None |};
  {| req_phase := "tasks"; req_path := "reports/tests/tasks-unit-help.md";
     req_predicate := Some python_workspace |};
  {| req_phase := "implement"; req_path := "reports/security/implement-scan.md";
     req_predicate := None |};
  {| req_phase := "analyze"; req_path := "reports/security/analyze-deltas.md";
     req_predicate := None |};
  {| req_phase := "analyze"; req_path := "reports/compliance/analyze-compliance.md";
     req_predicate := None |} ].

Definition mandatory (fs : FS) (r : ArtifactRequirement) : bool :=
  match req_predicate r with
  | None => true
  | Some holds => holds fs
  end.

(** Paths required for [phase] in the workspace [fs]. *)
Definition required (fs : FS) (phase : string) : list string :=
  map req_path
      (List.filter (fun r => (String.eqb phase (req_phase r) && mandatory fs r)%bool)
                   requirements).

(** Required paths at which there is no file. *)
Definition missing (fs : FS) (phase : string) : list string :=
  List.filter (fun p => negb (is_file fs p)) (required fs phase).

(** The detail marker of the specification's resolver: an owner or a
    timeline token, in any case, somewhere in the mitigation plan. *)
Definition owner_timeline_marker (text : string) : bool :=
  (Text.contains "owner" (Text.lower text) || Text.contains "timeline" (Text.lower text))%bool.

(** The phase names of the specification's command surface. *)
Definition phase_names : list string :=
  ["spec"; "plan"; "tasks"; "implement"; "analyze"; "review"; "deploy"].

End Policy.

(** ** Workspaces and hosts used below *)

Module Sample.

Import Runtime.

(** Every command succeeds and the producer scripts leave the files alone. *)
Definition quiet_host : Host := {|
  tool_exit := fun _ => 0;
  on_path := fun _ => true;
  generate_threat_model := fun fs => (0, fs);
  merge_audits := fun fs => (0, fs);
  generate_compliance_report := fun fs => (0, fs)
|}.

(** Like [quiet_host], but the given tools end with the given status. *)
Definition failing (bad : tool → Z) : Host := {|
  tool_exit := bad;
  on_path := fun _ => true;
  generate_threat_model := fun fs => (0, fs);
  merge_audits := fun fs => (0, fs);
  generate_compliance_report := fun fs => (0, fs)
|}.

(** [cargo test] ends with 101, everything else with 0. *)
Definition cargo_test_fails : Host :=
  failing (fun t => match t with CargoTest => 101 | _ => 0 end).

(** Both [pnpm run lint] and [npm run lint] end with 1. *)
Definition lint_fails : Host :=
  failing (fun t => match t with PnpmRunLint | NpmRunLint => 1 | _ => 0 end).

Definition high_report : string := "# Plan Scan" +:+ nl +:+ "- Severity: HIGH" +:+ nl.

(** Scenario B of the specification. *)
Definition plan_high : FS := <["reports/security/plan-scan.md" := high_report]> ∅.

(** A plan with the section header and nothing about owner or timeline. *)
Definition header_only_plan : string :=
  "# Plan" +:+ nl +:+ nl +:+ "## Security Mitigations" +:+ nl.

Definition plan_high_header_only : FS :=
  <["plans/plan.md" := header_only_plan]> plan_high.

(** Scenario C: the section with an owner and a timeline. *)
Definition full_plan : string :=
  "## Security Mitigations" +:+ nl +:+ nl +:+
  "### [SEC-1] Vulnerable dependency" +:+ nl +:+
  "- **Severity:** HIGH" +:+ nl +:+
  "- **Status:** Mitigated" +:+ nl +:+
  "- **Owner:** platform team" +:+ nl +:+
  "- **Timeline:** next sprint" +:+ nl.

Definition plan_high_mitigated : FS := <["plans/plan.md" := full_plan]> plan_high.

(** A mitigation plan that is there and says nothing. *)
Definition plan_high_empty_plan : FS := <["plans/plan.md" := ""]> plan_high.

(** A report with a NUL byte between the label and the level, and one with
    a NUL byte elsewhere on the line of the finding. *)
Definition split_report : string :=
  "Severity:" +:+ String Text.NUL ("HIGH" +:+ nl).

Definition plan_split : FS := <["reports/security/plan-scan.md" := split_report]> ∅.

Definition binary_report : string :=
  "x" +:+ String Text.NUL ("Severity: HIGH" +:+ String Text.NUL ("junk" +:+ nl)).

Definition plan_binary : FS := <["reports/security/plan-scan.md" := binary_report]> ∅.

(** The word in prose, no severity label on the line. *)
Definition prose_report : string :=
  "The upgrade is on the CRITICAL path for this release." +:+ nl.

Definition plan_prose : FS := <["reports/security/plan-scan.md" := prose_report]> ∅.

(** Analyze: the security report is there, the compliance report is not. *)
Definition analyze_high_no_compliance : FS :=
  <["reports/security/analyze-deltas.md" := high_report]> ∅.

(** Analyze: nothing is there. *)
Definition analyze_nothing : FS := ∅.

(** Implement: a Rust workspace, report with a finding, no mitigation. *)
Definition implement_high_rust : FS :=
  <["Cargo.toml" := "[workspace]" +:+ nl]>
    (<["reports/security/implement-scan.md" := high_report]> ∅).

(** Implement: a Rust workspace without the report. *)
Definition implement_missing_rust : FS := <["Cargo.toml" := "[workspace]" +:+ nl]> ∅.

(** Implement: Node and Rust workspaces, clean report. *)
Definition implement_node_rust : FS :=
  <["package.json" := "{}"]>
    (<["Cargo.toml" := "[workspace]" +:+ nl]>
       (<["reports/security/implement-scan.md" := "# Implement Scan" +:+ nl]> ∅)).

(** A plan report left by the plan phase. *)
Definition after_plan : FS :=
  <["reports/security/plan-scan.md" := "# Plan Scan – JS/TS" +:+ nl]> ∅.

(** Tasks and analyze with severity labels in the reports that are not
    scanned. *)
Definition tasks_with_label : FS :=
  <["pyproject.toml" := "[project]" +:+ nl]>
    (<["reports/tests/tasks-unit-help.md" := "Severity: CRITICAL" +:+ nl]> ∅).

Definition analyze_with_label : FS :=
  <["reports/security/analyze-deltas.md" := "# Deltas" +:+ nl]>
    (<["reports/compliance/analyze-compliance.md" := "Severity: CRITICAL" +:+ nl]> ∅).

End Sample.

(** ** Further workspaces and hosts *)

Module Case.

Import Runtime.

(** No package manager, no cargo, no pip-audit; every command fails. *)
Definition bare_host : Host := {|
  tool_exit := fun _ => 127;
  on_path := fun _ => false;
  generate_threat_model := fun fs => (127, fs);
  merge_audits := fun fs => (127, fs);
  generate_compliance_report := fun fs => (127, fs)
|}.

(** Every tool is installed and every audit reports a failure. *)
Definition noisy_host : Host := {|
  tool_exit := fun _ => 1;
  on_path := fun _ => true;
  generate_threat_model := fun fs => (0, fs);
  merge_audits := fun fs => (0, fs);
  generate_compliance_report := fun fs => (0, fs)
|}.

(** A Python project with an old report on file. *)
Definition python_project : FS :=
  <["requirements.txt" := "pytest" +:+ nl]>
    (<["reports/security/plan-scan.md" := "- Severity: CRITICAL (old run)" +:+ nl]> ∅).

End Case.

(** ** Text: the matcher agrees with its declarative reading *)

Section TextFacts.

Import Text.

Lemma starts_with_spec p s : starts_with p s = true ↔ ∃ b, s = p +:+ b.
Proof.
  revert s. induction p as [|a p IH]; intros s; simpl.
  - split; [intros _; by exists s | done].
  - destruct s as [|b s]; simpl.
    + split; [done | intros [t Ht]; discriminate].
    + rewrite andb_true_iff, Ascii.eqb_eq, IH. split.
      * intros [-> [t ->]]. by exists t.
      * intros [t Ht]. injection Ht as -> ->. split; [done | by exists t].
Qed.

Lemma skip_append p x : skip (String.length p) (p +:+ x) = x.
Proof. induction p as [|a p IH]; simpl; [by destruct x | done]. Qed.

Lemma contains_spec p s : contains p s = true ↔ occurs p s.
Proof.
  induction s as [|c s IH]; simpl; rewrite orb_true_iff, starts_with_spec.
  - split.
    + intros [[b Hb] | ?]; [by exists "", b | done].
    + intros ([|x a] & b & Hab); [left; by exists b | discriminate].
  - rewrite IH. split.
    + intros [[b Hb] | (a & b & ->)]; [by exists "", b | by exists (String c a), b].
    + intros ([|x a] & b & Hab); [left; by exists b |].
      right. injection Hab as -> ->. by exists a, b.
Qed.

Lemma holds_nul_nil : ¬ holds_nul "".
Proof. intros ([|x a] & b & H); discriminate. Qed.

Lemma holds_nul_cons x s : holds_nul (String x s) ↔ x = NUL ∨ holds_nul s.
Proof.
  unfold holds_nul. rewrite <- !contains_spec.
  change (contains (String NUL "") (String x s))
    with ((Ascii.eqb NUL x && true) || contains (String NUL "") s)%bool.
  rewrite orb_true_iff, andb_true_r, Ascii.eqb_eq.
  split; (intros [E | H]; [left; by symmetry | by right]).
Qed.

Lemma dot_spec x : dot x = true ↔ x ≠ NUL.
Proof.
  unfold dot. rewrite negb_true_iff. destruct (Ascii.eqb_spec x NUL); naive_solver.
Qed.

Lemma dots_then_spec q s :
  dots_then q s = true ↔ ∃ b c, s = b +:+ q +:+ c ∧ ¬ holds_nul b.
Proof.
  induction s as [|x s IH]; simpl; rewrite orb_true_iff, starts_with_spec.
  - split.
    + intros [[c Hc] | ?]; [| done]. exists "", c. split; [done | apply holds_nul_nil].
    + intros ([|y b] & c & Hbc & _); [left; by exists c | discriminate].
  - rewrite andb_true_iff, dot_spec, IH. split.
    + intros [[c Hc] | (Hx & b & c & -> & Hb)].
      * exists "", c. split; [done | apply holds_nul_nil].
      * exists (String x b), c. split; [done |]. rewrite holds_nul_cons. tauto.
    + intros ([|y b] & c & Hbc & Hb); [left; by exists c |].
      right. injection Hbc as -> ->. rewrite holds_nul_cons in Hb.
      split; [tauto |]. exists b, c. tauto.
Qed.

Lemma head_match_spec p q s :
  (starts_with p s && dots_then q (skip (String.length p) s))%bool = true
  ↔ ∃ b c, s = p +:+ b +:+ q +:+ c ∧ ¬ holds_nul b.
Proof.
  rewrite andb_true_iff, starts_with_spec, dots_then_spec. split.
  - intros [[t ->] (b & c & H & Hb)]. rewrite skip_append in H. subst t. by exists b, c.
  - intros (b & c & -> & Hb). split; [by eexists |]. rewrite skip_append. by exists b, c.
Qed.

Lemma then_contains_spec p q s : then_contains p q s = true ↔ occurs_then p q s.
Proof.
  induction s as [|x s IH]; simpl; rewrite orb_true_iff, head_match_spec.
  - split.
    + intros [(b & c & H & Hb) | ?]; [by exists "", b, c | done].
    + intros ([|y a] & b & c & Habc & Hb); [left; by exists b, c | discriminate].
  - rewrite IH. split.
    + intros [(b & c & H & Hb) | (a & b & c & -> & Hb)];
        [by exists "", b, c | by exists (String x a), b, c].
    + intros ([|y a] & b & c & Habc & Hb); [left; by exists b, c |].
      right. injection Habc as -> ->. by exists a, b, c.
Qed.

Lemma severity_line_spec line : severity_line line = true ↔ blocking_line line.
Proof.
  unfold severity_line, blocking_line.
  by rewrite orb_true_iff, !then_contains_spec.
Qed.

Lemma existsb_elem {A} (f : A → bool) (l : list A) :
  existsb f l = true ↔ ∃ x, x ∈ l ∧ f x = true.
Proof.
  rewrite existsb_exists. split; intros (x & Hx & Hf); exists x;
    (split; [by apply list_elem_of_In | done]).
Qed.

Lemma grep_qi_severity_spec text :
  grep_qi_severity text = true ↔ ∃ line, line ∈ lines text ∧ blocking_line line.
Proof.
  unfold grep_qi_severity. rewrite existsb_elem.
  split; intros (l & Hl & H); exists l; (split; [done | by apply severity_line_spec]).
Qed.

Lemma grep_q_spec pat text :
  grep_q pat text = true ↔ ∃ line, line ∈ lines text ∧ occurs pat line.
Proof.
  unfold grep_q. rewrite existsb_elem.
  split; intros (l & Hl & H); exists l; (split; [done | by apply contains_spec]).
Qed.

End TextFacts.

Lemma file_has_spec fs path pat : file_has fs path pat = true ↔ documented fs path pat.
Proof.
  unfold file_has, documented. destruct (fs !! path) as [text|] eqn:E.
  - rewrite grep_q_spec. split.
    + intros (l & Hl & H). by exists text, l.
    + intros (t & l & [= <-] & Hl & H). by exists l.
  - split; [done | intros (t & l & ? & _); done].
Qed.

Lemma blocking_report_spec fs path :
  blocking_report fs path ↔ ∃ text, fs !! path = Some text ∧ Text.grep_qi_severity text = true.
Proof.
  unfold blocking_report. split.
  - intros (text & l & E & Hl & H). exists text. split; [done |].
    apply grep_qi_severity_spec. by exists l.
  - intros (text & E & H). apply grep_qi_severity_spec in H as (l & Hl & H).
    by exists text, l.
Qed.

Lemma is_file_true fs path : is_file fs path = true ↔ is_Some (fs !! path).
Proof.
  unfold is_file. destruct (fs !! path); split; eauto; try done; by intros [? ?].
Qed.

Lemma is_file_false fs path : is_file fs path = false ↔ fs !! path = None.
Proof. unfold is_file. by destruct (fs !! path). Qed.

(** ** How the pieces of the hook run *)

Section Runs.

Import Hook.

Lemma runs_ret {A} (a : A) : runs (mret a) a [] [].
Proof. intros [e l]. unfold mret, hook_ret. simpl. by rewrite app_nil_r. Qed.

Lemma runs_bind {A B} (m : M A) (k : A → M B) a b c1 c2 e1 e2 :
  runs m a c1 e1 → runs (k a) b c2 e2 → runs (m ≫= k) b (c1 ++ c2) (e1 ++ e2).
Proof.
  intros Hm Hk s. unfold mbind, hook_bind. rewrite Hm, Hk. simpl.
  by rewrite fold_left_app, app_assoc.
Qed.

Lemma runs_echo line : runs (echo line) tt [] [Out line].
Proof. by intros [e l]. Qed.

Lemma runs_exec h t : runs (exec h t) (status_of h t) [] [Exec t (status_of h t)].
Proof. by intros [e l]. Qed.

Lemma runs_or_else a b ca cb ea eb :
  runs a ca [] ea → runs b cb [] eb →
  runs (or_else a b) (if ca =? 0 then 0 else cb) []
       (ea ++ if ca =? 0 then [] else eb).
Proof.
  intros Ha Hb. unfold or_else.
  change (@nil Z) with (@nil Z ++ @nil Z).
  eapply runs_bind; [exact Ha |].
  destruct (ca =? 0); [apply runs_ret | exact Hb].
Qed.

Lemma runs_or_record a c evs : runs a c [] evs → runs (or_record a) tt [c] evs.
Proof.
  intros Ha s. unfold or_record, mbind, hook_bind. rewrite Ha. simpl.
  unfold record. destruct (c =? 0) eqn:E; [| done].
  unfold mret, hook_ret. done.
Qed.

Lemma runs_for_each {A} (l : list A) (f : A → string) :
  runs (for_each l (fun x => echo (f x))) tt [] (map (fun x => Out (f x)) l).
Proof.
  induction l as [|x l IH]; simpl; [apply runs_ret |].
  change (@nil Z) with (@nil Z ++ @nil Z).
  change (Out (f x) :: map (λ x0, Out (f x0)) l)
    with ([Out (f x)] ++ map (λ x0, Out (f x0)) l).
  eapply runs_bind; [apply runs_echo | exact IH].
Qed.

Lemma runs_from_start {A} (m : M A) a evs :
  runs m a [] evs → fst (m start) = a ∧ emitted (snd (m start)) = evs.
Proof. intros H. by rewrite (H start). Qed.

Lemma started_app l1 l2 : started (l1 ++ l2) = started l1 ++ started l2.
Proof. unfold started. by rewrite flat_map_app. Qed.

Lemma started_outs {A} (f : A → string) l : started (map (fun x => Out (f x)) l) = [].
Proof. by induction l. Qed.

(** *** Printing only *)

Lemma prints_ret {A} (a : A) : prints (mret a : M A) a.
Proof. exists []. split; [apply runs_ret | done]. Qed.

Lemma prints_echo_then {A} line (k : M A) a : prints k a → prints (echo line ;; k) a.
Proof.
  intros (evs & Hk & Hs). exists ([Out line] ++ evs). split; [| done].
  change (@nil Z) with (@nil Z ++ @nil Z).
  eapply runs_bind; [apply runs_echo | exact Hk].
Qed.

Lemma prints_bind {A B} (m : M A) (k : A → M B) a b :
  prints m a → prints (k a) b → prints (m ≫= k) b.
Proof.
  intros (e1 & Hm & H1) (e2 & Hk & H2). exists (e1 ++ e2). split.
  - change (@nil Z) with (@nil Z ++ @nil Z). by eapply runs_bind.
  - by rewrite started_app, H1, H2.
Qed.

Lemma prints_scan_reports fs rs : prints (scan_reports fs rs) (findings_verdict fs rs).
Proof.
  unfold findings_verdict, mitigation_on_file.
  induction rs as [|r rs IH]; simpl; [apply prints_ret |].
  unfold has_blocking_finding at 1.
  destruct (fs !! r) as [text|]; [| exact IH].
  destruct (Text.grep_qi_severity text); [| exact IH]. simpl.
  apply prints_echo_then.
  destruct (file_has fs "plans/plan.md" "Security Mitigations");
    [apply prints_echo_then; revert IH; simpl; by rewrite andb_false_r |].
  destruct (file_has fs "DECISIONS.md" "Security Finding Waiver");
    [apply prints_echo_then; revert IH; simpl; by rewrite andb_false_r |].
  do 2 apply prints_echo_then. apply prints_ret.
Qed.

Lemma prints_validate fs phase :
  prints (validate_plugin_artifacts fs phase) (gate_verdict fs phase).
Proof.
  unfold validate_plugin_artifacts, gate_verdict. apply prints_echo_then.
  destruct (0 <? length (missing_artifacts_for fs phase))%nat.
  - apply prints_echo_then. eapply prints_bind; [| apply prints_ret].
    eexists. split; [apply runs_for_each | apply started_outs].
  - eapply prints_bind; [apply prints_scan_reports |].
    eapply prints_bind; [| apply prints_ret].
    destruct (_ =? 0); [| apply prints_ret].
    exists [Out "  ✅ Plugin artifacts validated"]. split; [apply runs_echo | done].
Qed.

Lemma gate_status_verdict fs phase : gate_status fs phase = gate_verdict fs phase.
Proof.
  destruct (prints_validate fs phase) as (evs & H & _).
  unfold gate_status. by destruct (runs_from_start _ _ _ H) as [-> _].
Qed.

Lemma findings_status_verdict fs phase :
  findings_status fs phase = findings_verdict fs (report_files_for phase).
Proof.
  destruct (prints_scan_reports fs (report_files_for phase)) as (evs & H & _).
  unfold findings_status, check_security_findings.
  by destruct (runs_from_start _ _ _ H) as [-> _].
Qed.

Lemma runs_validate fs phase :
  runs (validate_plugin_artifacts fs phase) (gate_status fs phase) []
       (gate_events fs phase).
Proof.
  destruct (prints_validate fs phase) as (evs & H & _).
  unfold gate_status, gate_events.
  by destruct (runs_from_start _ _ _ H) as [-> ->].
Qed.

Lemma started_gate_events fs phase : started (gate_events fs phase) = [].
Proof.
  destruct (prints_validate fs phase) as (evs & H & Hs).
  unfold gate_events. by destruct (runs_from_start _ _ _ H) as [_ ->].
Qed.

(** *** Blocks that record statuses *)

Lemma block_ext m cs ts cs' ts' : block m cs ts → cs = cs' → ts = ts' → block m cs' ts'.
Proof. by intros H <- <-. Qed.

Lemma block_seq m k c1 c2 t1 t2 :
  block m c1 t1 → block k c2 t2 → block (m ;; k) (c1 ++ c2) (t1 ++ t2).
Proof.
  intros (e1 & Hm & H1) (e2 & Hk & H2). exists (e1 ++ e2). split.
  - by eapply runs_bind.
  - by rewrite started_app, H1, H2.
Qed.

Lemma block_echo line : block (echo line) [] [].
Proof. exists [Out line]. split; [apply runs_echo | done]. Qed.

Lemma block_skip : block (mret tt) [] [].
Proof. exists []. split; [apply runs_ret | done]. Qed.

Lemma block_fallback h a b :
  block (or_record (or_else (exec h a) (exec h b)))
        [fallback_status h a b] (fallback_tools h a b).
Proof.
  eexists. split.
  - apply runs_or_record. apply runs_or_else; apply runs_exec.
  - unfold fallback_tools. by destruct (status_of h a =? 0).
Qed.

Lemma block_single h t : block (or_record (exec h t)) [status_of h t] [t].
Proof. eexists. split; [apply runs_or_record, runs_exec | done]. Qed.

Ltac block_steps :=
  repeat (eapply block_seq;
          [first [apply block_echo | apply block_fallback | apply block_single] |]);
  first [apply block_echo | apply block_fallback | apply block_single].

Lemma block_node_checks h fs phase :
  block (node_checks h fs phase)
        (if node_runs fs phase then node_statuses h else [])
        (if node_runs fs phase then node_tools h else []).
Proof.
  unfold node_checks, node_runs.
  destruct (is_file fs "package.json"); simpl; [| apply block_skip].
  destruct (String.eqb phase "implement").
  - eapply block_ext; [block_steps | done |].
    unfold node_tools. by simpl.
  - eapply block_ext; [block_steps | done | done].
Qed.

Lemma block_rust_checks h fs phase :
  block (rust_checks h fs phase)
        (if rust_runs fs phase then rust_statuses h else [])
        (if rust_runs fs phase then rust_tools else []).
Proof.
  unfold rust_checks, rust_runs.
  destruct (is_file fs "Cargo.toml"); simpl; [| apply block_skip].
  destruct (String.eqb phase "implement");
    (eapply block_ext; [block_steps | done | done]).
Qed.

End Runs.

(** ** One run of the hook, read off as statuses and commands *)

Section WholeRun.

Import Hook.

Lemma runs_then {A B} (m : M A) (k : A → M B) a cs evs s :
  runs m a cs evs →
  (m ≫= k) s = k a {| EXIT_CODE := fold_left (fun e c => record c e) cs (EXIT_CODE s);
                      emitted := emitted s ++ evs |}.
Proof. intros H. unfold mbind, hook_bind. by rewrite H. Qed.

Lemma status_of_range h t : 0 ≤ status_of h t < 256.
Proof. unfold status_of, wait_status. by apply Z.mod_pos_bound. Qed.

Lemma fallback_status_range h a b : 0 ≤ fallback_status h a b < 256.
Proof.
  unfold fallback_status. destruct (_ =? 0); [lia | apply status_of_range].
Qed.

Lemma findings_verdict_cases fs rs : findings_verdict fs rs = 0 ∨ findings_verdict fs rs = 2.
Proof. unfold findings_verdict. destruct (_ && _)%bool; auto. Qed.

Lemma gate_status_cases fs phase :
  gate_status fs phase = 0 ∨ gate_status fs phase = 1 ∨ gate_status fs phase = 2.
Proof.
  rewrite gate_status_verdict. unfold gate_verdict.
  destruct (0 <? _)%nat; [auto |].
  destruct (findings_verdict_cases fs (report_files_for phase)) as [-> | ->]; auto.
Qed.

Lemma step_statuses_range h fs phase :
  Forall (fun c => 0 ≤ c < 256) (step_statuses h fs phase).
Proof.
  unfold step_statuses, validator_statuses, node_statuses, rust_statuses.
  rewrite !Forall_app. split_and!.
  - destruct (gated_phase phase); [| constructor].
    constructor; [| constructor].
    destruct (gate_status_cases fs phase) as [-> | [-> | ->]]; lia.
  - destruct (node_runs fs phase); repeat constructor; apply fallback_status_range.
  - destruct (rust_runs fs phase); repeat constructor; apply status_of_range.
Qed.

Lemma fold_record_range cs e :
  Forall (fun c => 0 ≤ c < 256) cs → 0 ≤ e < 256 →
  0 ≤ fold_left (fun e c => record c e) cs e < 256.
Proof.
  intros H. revert e. induction H as [|c cs Hc _ IH]; intros e He; simpl; [done |].
  apply IH. unfold record. by destruct (c =? 0).
Qed.

Lemma last_failure_range h fs phase : 0 ≤ last_failure (step_statuses h fs phase) < 256.
Proof. apply fold_record_range; [apply step_statuses_range | lia]. Qed.

Lemma finish_at c l :
  0 ≤ c < 256 →
  ∃ line, finish {| EXIT_CODE := c; emitted := l |}
          = (c, {| EXIT_CODE := c; emitted := l ++ [Out line] |}).
Proof.
  intros Hc. unfold finish, mbind, hook_bind, get_EXIT_CODE. simpl.
  destruct (c =? 0) eqn:E; simpl.
  - apply Z.eqb_eq in E as ->. by eexists.
  - eexists. unfold wait_status. by rewrite Z.mod_small.
Qed.

(** The gate part of [main]. *)
Lemma runs_gate fs phase :
  runs (if gated_phase phase then or_record (validate_plugin_artifacts fs phase)
        else mret tt)
       tt (if gated_phase phase then [gate_status fs phase] else [])
       (if gated_phase phase then gate_events fs phase else []).
Proof.
  destruct (gated_phase phase); [apply runs_or_record, runs_validate | apply runs_ret].
Qed.

(** A run of the hook ends with the status of its last failing step; its
    events are a banner, what artifact validation printed, the validator
    blocks, and one closing line. *)
Lemma lint_phase_run h fs arg :
  ∃ banner evn evr closing,
    lint_phase h fs arg =
      (last_failure (step_statuses h fs (phase_of_argument arg)),
       [Out banner] ++
       (if gated_phase (phase_of_argument arg)
        then gate_events fs (phase_of_argument arg) else []) ++
       evn ++ evr ++ [Out closing])
    ∧ started evn = (if node_runs fs (phase_of_argument arg) then node_tools h else [])
    ∧ started evr = (if rust_runs fs (phase_of_argument arg) then rust_tools else []).
Proof.
  set (phase := phase_of_argument arg).
  destruct (block_node_checks h fs phase) as (evn & Hn & Hsn).
  destruct (block_rust_checks h fs phase) as (evr & Hr & Hsr).
  pose proof (last_failure_range h fs phase) as Hrange.
  unfold last_failure, step_statuses, validator_statuses in Hrange |- *.
  rewrite !fold_left_app in Hrange |- *.
  edestruct finish_at as [closing Hfin]; [exact Hrange |].
  exists ("🔍 Running lint_phase hook for: " +:+ phase), evn, evr, closing.
  split; [| done].
  unfold lint_phase, main. fold phase.
  rewrite (runs_then _ _ _ _ _ _ (runs_echo _)).
  rewrite (runs_then _ _ _ _ _ _ (runs_gate fs phase)).
  rewrite (runs_then _ _ _ _ _ _ Hn).
  rewrite (runs_then _ _ _ _ _ _ Hr).
  simpl. rewrite Hfin. simpl. by rewrite <- !app_assoc.
Qed.

Lemma exit_code_last_failure h fs arg :
  exit_code h fs arg = last_failure (step_statuses h fs (phase_of_argument arg)).
Proof.
  destruct (lint_phase_run h fs arg) as (b & evn & evr & c & H & _).
  unfold exit_code. by rewrite H.
Qed.

Lemma started_output h fs arg :
  started (output h fs arg) = validator_tools h fs (phase_of_argument arg).
Proof.
  destruct (lint_phase_run h fs arg) as (b & evn & evr & c & H & Hn & Hr).
  unfold output, validator_tools. rewrite H. simpl.
  rewrite !started_app, Hn, Hr.
  destruct (gated_phase _); [rewrite started_gate_events |]; simpl; by rewrite app_nil_r.
Qed.

Lemma gate_events_output h fs arg e :
  gated_phase (phase_of_argument arg) = true →
  e ∈ gate_events fs (phase_of_argument arg) → e ∈ output h fs arg.
Proof.
  intros Hg He.
  destruct (lint_phase_run h fs arg) as (b & evn & evr & c & H & _).
  unfold output. rewrite H, Hg. simpl. set_solver.
Qed.

(** The script without artifact validation: the validator steps alone. *)
Lemma lint_phase_plain_run h fs arg :
  ∃ banner evn evr closing,
    lint_phase_plain h fs arg =
      (last_failure (validator_statuses h fs (phase_of_argument arg)),
       [Out banner] ++ evn ++ evr ++ [Out closing])
    ∧ started evn = (if node_runs fs (phase_of_argument arg) then node_tools h else [])
    ∧ started evr = (if rust_runs fs (phase_of_argument arg) then rust_tools else []).
Proof.
  set (phase := phase_of_argument arg).
  destruct (block_node_checks h fs phase) as (evn & Hn & Hsn).
  destruct (block_rust_checks h fs phase) as (evr & Hr & Hsr).
  assert (0 ≤ last_failure (validator_statuses h fs phase) < 256) as Hrange.
  { apply fold_record_range; [| lia].
    pose proof (step_statuses_range h fs phase) as H. unfold step_statuses in H.
    by apply Forall_app in H as [_ H]. }
  unfold last_failure, validator_statuses in Hrange |- *.
  rewrite !fold_left_app in Hrange |- *.
  edestruct finish_at as [closing Hfin]; [exact Hrange |].
  exists ("🔍 Running lint_phase hook for: " +:+ phase), evn, evr, closing.
  split; [| done].
  unfold lint_phase_plain, main_plain. fold phase.
  rewrite (runs_then _ _ _ _ _ _ (runs_echo _)).
  rewrite (runs_then _ _ _ _ _ _ Hn).
  rewrite (runs_then _ _ _ _ _ _ Hr).
  simpl. rewrite Hfin. simpl. by rewrite <- !app_assoc.
Qed.

Lemma started_output_plain h fs arg :
  started (snd (lint_phase_plain h fs arg)) = validator_tools h fs (phase_of_argument arg).
Proof.
  destruct (lint_phase_plain_run h fs arg) as (b & evn & evr & c & H & Hn & Hr).
  unfold validator_tools. rewrite H. simpl.
  rewrite !started_app, Hn, Hr. simpl. by rewrite app_nil_r.
Qed.

Lemma exit_code_plain h fs arg :
  fst (lint_phase_plain h fs arg) = last_failure (validator_statuses h fs (phase_of_argument arg)).
Proof.
  destruct (lint_phase_plain_run h fs arg) as (b & evn & evr & c & H & _). by rewrite H.
Qed.

End WholeRun.

(** ** The accumulated exit code *)

Section ExitCode.

Lemma fold_record_zeros cs e :
  Forall (fun c => c = 0) cs → fold_left (fun e c => record c e) cs e = e.
Proof.
  intros H. revert e. induction H as [|c cs -> _ IH]; intros e; simpl; [done |].
  by rewrite IH.
Qed.

Lemma fold_record_sticky cs e :
  e ≠ 0 → fold_left (fun e c => record c e) cs e ≠ 0.
Proof.
  revert e. induction cs as [|c cs IH]; intros e He; simpl; [done |].
  apply IH. unfold record. destruct (c =? 0) eqn:E; [done | by apply Z.eqb_neq].
Qed.

Lemma fold_record_failure cs e c :
  c ∈ cs → c ≠ 0 → fold_left (fun e c => record c e) cs e ≠ 0.
Proof.
  intros Hin Hc. revert e. induction cs as [|d cs IH]; intros e; simpl.
  - by apply elem_of_nil in Hin.
  - apply elem_of_cons in Hin as [<- | Hin]; [| by apply IH].
    apply fold_record_sticky. unfold record.
    destruct (c =? 0) eqn:E; [by apply Z.eqb_eq in E | done].
Qed.

Lemma fold_record_origin cs e :
  fold_left (fun e c => record c e) cs e = e ∨
  fold_left (fun e c => record c e) cs e ∈ cs.
Proof.
  revert e. induction cs as [|c cs IH]; intros e; simpl; [by left |].
  destruct (IH (record c e)) as [-> | H]; [| right; by right].
  unfold record. destruct (c =? 0); [by left | right; by left].
Qed.

Lemma last_failure_zero cs : last_failure cs = 0 ↔ Forall (fun c => c = 0) cs.
Proof.
  unfold last_failure. split; [| apply fold_record_zeros].
  intros H. apply Forall_forall. intros c Hc.
  destruct (decide (c = 0)) as [| Hne]; [done |].
  by destruct (fold_record_failure cs 0 c Hc Hne).
Qed.

Lemma last_failure_gate h fs phase :
  Hook.gated_phase phase = true → validators_pass h fs phase →
  last_failure (step_statuses h fs phase) = gate_status fs phase.
Proof.
  intros Hg Hv. unfold last_failure, step_statuses. rewrite Hg, fold_left_app.
  rewrite fold_record_zeros by exact Hv. simpl. unfold record.
  destruct (gate_status fs phase =? 0) eqn:E; [by apply Z.eqb_eq in E | done].
Qed.

Lemma last_failure_gate_failed h fs phase :
  Hook.gated_phase phase = true → gate_status fs phase ≠ 0 →
  last_failure (step_statuses h fs phase) ≠ 0.
Proof.
  intros Hg Hne. unfold last_failure, step_statuses. rewrite Hg.
  eapply fold_record_failure; [| exact Hne]. set_solver.
Qed.

Lemma validators_pass_outside h fs phase :
  String.eqb phase "implement" = false → validators_pass h fs phase.
Proof.
  intros H. unfold validators_pass, validator_statuses, node_runs, rust_runs.
  rewrite H, !andb_false_r. constructor.
Qed.

End ExitCode.

(** ** Required artifacts: the script agrees with the table *)

Section Artifacts.

Import Hook.

Lemma missing_artifacts_for_policy fs phase :
  missing_artifacts_for fs phase = Policy.missing fs phase.
Proof.
  unfold missing_artifacts_for, Policy.missing, Policy.required, Policy.requirements,
    note_missing.
  cbn [List.filter map Policy.req_phase Policy.req_path Policy.mandatory
       Policy.req_predicate].
  destruct (String.eqb_spec phase "spec") as [-> | _];
    [simpl; by destruct (is_file fs _) |].
  destruct (String.eqb_spec phase "plan") as [-> | _];
    [simpl; by destruct (is_file fs _) |].
  destruct (String.eqb_spec phase "tasks") as [-> | _].
  { simpl. unfold Policy.python_workspace.
    destruct (is_file fs "requirements.txt" || is_file fs "pyproject.toml")%bool;
      simpl; [by destruct (is_file fs _) | done]. }
  destruct (String.eqb_spec phase "implement") as [-> | _];
    [simpl; by destruct (is_file fs _) |].
  destruct (String.eqb_spec phase "analyze") as [-> | _]; [| by simpl].
  simpl. by destruct (is_file fs "reports/security/analyze-deltas.md"),
    (is_file fs "reports/compliance/analyze-compliance.md").
Qed.

Lemma missing_needs_gated fs phase :
  Policy.missing fs phase ≠ [] → gated_phase phase = true.
Proof.
  rewrite <- missing_artifacts_for_policy. unfold missing_artifacts_for, gated_phase.
  destruct (String.eqb phase "spec"); [done |].
  destruct (String.eqb phase "plan"); [done |].
  destruct (String.eqb phase "tasks"); [done |].
  destruct (String.eqb phase "implement"); [done |].
  by destruct (String.eqb phase "analyze").
Qed.

Lemma reports_need_gated phase :
  report_files_for phase ≠ [] → gated_phase phase = true.
Proof.
  unfold report_files_for, gated_phase.
  destruct (String.eqb phase "spec"); [done |].
  destruct (String.eqb phase "plan"); [done |].
  destruct (String.eqb phase "implement"); [by rewrite !orb_true_r |].
  destruct (String.eqb phase "analyze"); [by rewrite !orb_true_r | done].
Qed.

Lemma gated_phase_argument phase :
  gated_phase phase = true → phase_of_argument (Some phase) = phase.
Proof. unfold phase_of_argument. by destruct (String.eqb_spec phase "") as [-> |]. Qed.

Lemma gate_status_missing fs phase :
  Policy.missing fs phase ≠ [] → gate_status fs phase = 1.
Proof.
  intros H. rewrite gate_status_verdict. unfold gate_verdict.
  rewrite missing_artifacts_for_policy. by destruct (Policy.missing fs phase).
Qed.

Lemma gate_status_present fs phase :
  Policy.missing fs phase = [] →
  gate_status fs phase = findings_verdict fs (report_files_for phase).
Proof.
  intros H. rewrite gate_status_verdict. unfold gate_verdict.
  by rewrite missing_artifacts_for_policy, H.
Qed.

Lemma gate_events_missing fs phase p :
  p ∈ Policy.missing fs phase → Out ("     - " +:+ p) ∈ gate_events fs phase.
Proof.
  intros Hp.
  assert (∃ pre, runs (validate_plugin_artifacts fs phase) 1 []
            (pre ++ map (fun a => Out ("     - " +:+ a)) (Policy.missing fs phase)))
    as [pre H].
  { unfold validate_plugin_artifacts. rewrite missing_artifacts_for_policy.
    destruct (Policy.missing fs phase) as [|q l] eqn:E; [by apply elem_of_nil in Hp |].
    simpl (0 <? _)%nat. cbv iota. eexists [_; _].
    change (@nil Z) with (@nil Z ++ @nil Z ++ @nil Z ++ @nil Z).
    change ([?a; ?b] ++ ?l) with ([a] ++ [b] ++ l).
    eapply runs_bind; [apply runs_echo |].
    eapply runs_bind; [apply runs_echo |].
    rewrite <- (app_nil_r (map _ _)).
    eapply runs_bind; [apply runs_for_each | apply runs_ret]. }
  apply runs_from_start in H as [_ H]. unfold gate_events. rewrite H.
  apply elem_of_app. right. apply list_elem_of_fmap. by exists p.
Qed.

End Artifacts.

(** ** Findings and their mitigation *)

Section Findings.

Import Hook.

Lemma has_blocking_finding_spec fs path :
  has_blocking_finding fs path = true ↔ blocking_report fs path.
Proof.
  rewrite blocking_report_spec. unfold has_blocking_finding.
  destruct (fs !! path) as [text|]; split; try done.
  - intros H. by exists text.
  - by intros (t & [= <-] & H).
  - by intros (t & ? & _).
Qed.

Lemma mitigation_on_file_spec fs :
  mitigation_on_file fs = true ↔
  documented fs "plans/plan.md" "Security Mitigations" ∨
  documented fs "DECISIONS.md" "Security Finding Waiver".
Proof. unfold mitigation_on_file. by rewrite orb_true_iff, !file_has_spec. Qed.

Lemma findings_verdict_blocked fs rs :
  findings_verdict fs rs = 2 ↔
  (∃ report, report ∈ rs ∧ blocking_report fs report) ∧
  ¬ (documented fs "plans/plan.md" "Security Mitigations" ∨
     documented fs "DECISIONS.md" "Security Finding Waiver").
Proof.
  rewrite <- mitigation_on_file_spec. unfold findings_verdict.
  destruct (existsb (has_blocking_finding fs) rs) eqn:E; simpl.
  - apply existsb_elem in E as (r & Hr & Hb). apply has_blocking_finding_spec in Hb.
    destruct (mitigation_on_file fs); simpl; split; try done.
    + by intros [_ H].
    + intros _. split; [by exists r | done].
  - split; [done |]. intros [(r & Hr & Hb) _].
    apply has_blocking_finding_spec in Hb.
    assert (existsb (has_blocking_finding fs) rs = true) as E'
      by (apply existsb_elem; by exists r).
    congruence.
Qed.

Lemma findings_verdict_clear fs rs :
  findings_verdict fs rs = 0 ↔ findings_verdict fs rs ≠ 2.
Proof. destruct (findings_verdict_cases fs rs) as [-> | ->]; split; done. Qed.

End Findings.

(** ** The invoker and the files *)

Section Invoker.

Import Runtime.

Lemma keeps_and_then l a b : keeps l a → keeps l b → keeps l (a >>> b).
Proof.
  intros Ha Hb w p Hp Hw. unfold and_then.
  specialize (Ha w p Hp Hw). destruct (a w) as [c w'] eqn:E. simpl in Ha.
  destruct (c =? 0); [by apply Hb | done].
Qed.

Lemma keeps_write l f :
  (∀ fs p, is_Some (fs !! p) → is_Some (f fs !! p)) → keeps l (write f).
Proof. intros H w p _ Hw. by apply H. Qed.

Lemma insert_keeps (fs : FS) path text p :
  is_Some (fs !! p) → is_Some (<[path := text]> fs !! p).
Proof. intros H. apply lookup_insert_is_Some. destruct (decide (path = p)); auto. Qed.

Lemma keeps_truncate l path : keeps l (write (truncate path)).
Proof. apply keeps_write. intros fs p. apply insert_keeps. Qed.

Lemma keeps_append l path text : keeps l (write (append_to path text)).
Proof. apply keeps_write. intros fs p. apply insert_keeps. Qed.

Lemma keeps_echo_to l path text : keeps l (echo_to path text).
Proof. apply keeps_append. Qed.

Lemma keeps_record_event l e : keeps l (record_event e).
Proof. by intros w p _ Hw. Qed.

Lemma keeps_exit_with l c : keeps l (exit_with c).
Proof. by intros w p _ Hw. Qed.

Lemma keeps_run_tool l h t : keeps l (run_tool h t).
Proof. by intros w p _ Hw. Qed.

Lemma keeps_when l test a b : keeps l a → keeps l b → keeps l (when_ test a b).
Proof.
  intros Ha Hb w p Hp Hw. unfold when_. destruct (test (files w)); [by apply Ha | by apply Hb].
Qed.

Lemma keeps_or_true_to l a path : keeps l a → keeps l (or_true_to a path).
Proof.
  intros Ha w p Hp Hw. unfold or_true_to.
  specialize (Ha w p Hp Hw). destruct (a w) as [c w'] eqn:E. simpl in Ha.
  destruct (c =? 0); [done |]. simpl. by apply insert_keeps.
Qed.

Lemma keeps_call l s : preserves s → keeps l (call s).
Proof.
  intros Hs w p _ Hw. unfold call. specialize (Hs (files w) p Hw).
  by destruct (s (files w)).
Qed.

Lemma keeps_mv_f src dst : keeps [src] (mv_f src dst).
Proof.
  intros w p Hp Hw. unfold mv_f. destruct (files w !! src) as [text|]; [| done].
  simpl. apply insert_keeps. rewrite lookup_delete_ne; [done |]. set_solver.
Qed.

Ltac keeps_all :=
  repeat first
    [ apply keeps_and_then | apply keeps_truncate | apply keeps_append
    | apply keeps_echo_to | apply keeps_record_event | apply keeps_exit_with
    | apply keeps_run_tool | apply keeps_when | apply keeps_or_true_to
    | apply keeps_write; intros ? ?; apply insert_keeps
    | match goal with |- keeps _ (if ?b then _ else _) => destruct b end ].

Lemma keeps_audit_js l h : keeps l (audit_js h).
Proof. unfold audit_js. keeps_all. Qed.

Lemma keeps_audit_rust l h : keeps l (audit_rust h).
Proof. unfold audit_rust. keeps_all. Qed.

Lemma keeps_audit_python l h : keeps l (audit_python h).
Proof. unfold audit_python. keeps_all. Qed.

Lemma keeps_python_unit_help l : keeps l python_unit_help.
Proof. unfold python_unit_help. keeps_all. Qed.

Lemma keeps_claude_stub l path title : keeps l (claude_stub path title).
Proof. unfold claude_stub. keeps_all. Qed.

Lemma keeps_unknown_phase l PHASE : keeps l (unknown_phase PHASE).
Proof. unfold unknown_phase. keeps_all. Qed.

Lemma keeps_run_cli_plan l h : preserves (merge_audits h) → keeps l (run_cli_plan h).
Proof.
  intros Hm. unfold run_cli_plan.
  apply keeps_and_then; [| by apply keeps_call].
  apply keeps_and_then; [| apply keeps_audit_python].
  apply keeps_and_then; [apply keeps_audit_js | apply keeps_audit_rust].
Qed.

Lemma keeps_run_cli_implement h :
  preserves (merge_audits h) →
  keeps ["reports/security/plan-scan.md"] (run_cli_implement h).
Proof.
  intros Hm. unfold run_cli_implement.
  apply keeps_and_then; [by apply keeps_run_cli_plan | apply keeps_mv_f].
Qed.

(** In claude mode no phase removes a file. *)
Lemma keeps_claude h var arg :
  String.eqb (mode_of var) "claude" = true →
  keeps [] (plugins_runtime h var arg).
Proof.
  intros Hmode. unfold plugins_runtime. rewrite Hmode.
  destruct (String.eqb (default "" arg) "spec").
  { apply keeps_and_then; [apply keeps_record_event | apply keeps_claude_stub]. }
  repeat match goal with |- keeps _ (if ?b then _ else _) => destruct b end;
    first [apply keeps_claude_stub | apply keeps_unknown_phase].
Qed.

(** Outside claude mode only the implement phase does, and only the plan
    report. *)
Lemma keeps_cli h var arg :
  preserves (generate_threat_model h) → preserves (merge_audits h) →
  preserves (generate_compliance_report h) →
  String.eqb (mode_of var) "claude" = false →
  keeps (if String.eqb (default "" arg) "implement"
         then ["reports/security/plan-scan.md"] else [])
        (plugins_runtime h var arg).
Proof.
  intros Ht Hm Hc Hmode. unfold plugins_runtime. rewrite Hmode.
  destruct (String.eqb_spec (default "" arg) "spec") as [-> | _];
    [by apply keeps_call |].
  destruct (String.eqb_spec (default "" arg) "plan") as [-> | _];
    [by apply keeps_run_cli_plan |].
  destruct (String.eqb_spec (default "" arg) "tasks") as [-> | _].
  { unfold run_cli_tasks. apply keeps_when;
      [apply keeps_python_unit_help | apply keeps_record_event]. }
  destruct (String.eqb (default "" arg) "implement");
    [by apply keeps_run_cli_implement |].
  destruct (String.eqb (default "" arg) "analyze");
    [by apply keeps_call | apply keeps_unknown_phase].
Qed.

Lemma implement_moves_plan_scan h w :
  fst (run_cli_implement h w) = 0 →
  files (snd (run_cli_implement h w)) !! "reports/security/plan-scan.md" = None
  ∧ is_Some (files (snd (run_cli_implement h w)) !! "reports/security/implement-scan.md").
Proof.
  unfold run_cli_implement, and_then.
  destruct (run_cli_plan h w) as [c w'].
  destruct (c =? 0) eqn:E; [| simpl; intros ->; done].
  unfold mv_f. destruct (files w' !! "reports/security/plan-scan.md") as [text|];
    [| done].
  simpl. intros _. split.
  - rewrite lookup_insert_ne by done. apply lookup_delete_eq.
  - rewrite lookup_insert_eq. by eexists.
Qed.

End Invoker.

(** ** Reports the hook does not read *)

Section Unscanned.

Import Hook.

Lemma is_file_insert (fs : FS) path text q :
  is_Some (fs !! path) → is_file (<[path := text]> fs) q = is_file fs q.
Proof.
  intros [old Hold]. unfold is_file. destruct (decide (path = q)) as [<- | Hne].
  - by rewrite lookup_insert_eq, Hold.
  - by rewrite lookup_insert_ne.
Qed.

Lemma file_has_insert_ne (fs : FS) path text q pat :
  q ≠ path → file_has (<[path := text]> fs) q pat = file_has fs q pat.
Proof. intros Hne. unfold file_has. by rewrite lookup_insert_ne. Qed.

Lemma scan_reports_insert (fs : FS) path text rs :
  Forall (fun r => r ≠ path) rs → "plans/plan.md" ≠ path → "DECISIONS.md" ≠ path →
  scan_reports (<[path := text]> fs) rs = scan_reports fs rs.
Proof.
  intros Hrs Hp Hd. induction Hrs as [|r rs Hr _ IH]; simpl; [done |].
  rewrite lookup_insert_ne by done. rewrite !file_has_insert_ne by done.
  by rewrite IH.
Qed.

Lemma report_files_for_elsewhere phase path :
  path ∈ ["reports/tests/tasks-unit-help.md"; "reports/compliance/analyze-compliance.md"] →
  Forall (fun r => r ≠ path) (report_files_for phase).
Proof.
  intros Hpath. unfold report_files_for.
  repeat match goal with |- Forall _ (if ?b then _ else _) => destruct b end;
    repeat (apply Forall_cons_2;
            [intros <-; apply list_elem_of_In in Hpath; simpl in Hpath;
             intuition discriminate |]);
    apply Forall_nil_2.
Qed.

Lemma lint_phase_insert h (fs : FS) path text arg :
  path ∈ ["reports/tests/tasks-unit-help.md"; "reports/compliance/analyze-compliance.md"] →
  is_Some (fs !! path) →
  lint_phase h (<[path := text]> fs) arg = lint_phase h fs arg.
Proof.
  intros Hpath Hsome.
  unfold lint_phase, main, validate_plugin_artifacts, check_security_findings,
    node_checks, rust_checks, missing_artifacts_for, note_missing.
  rewrite !is_file_insert by done.
  rewrite scan_reports_insert; [done | by apply report_files_for_elsewhere | |];
    intros <-; apply list_elem_of_In in Hpath; simpl in Hpath; intuition discriminate.
Qed.

Lemma exit_code_tasks h fs :
  Policy.missing fs "tasks" = [] → exit_code h fs (Some "tasks") = 0.
Proof.
  intros Hm. rewrite exit_code_last_failure. simpl phase_of_argument.
  rewrite last_failure_gate; [| done | by apply validators_pass_outside].
  by rewrite gate_status_present.
Qed.

Lemma exit_code_analyze h fs :
  Policy.missing fs "analyze" = [] →
  ¬ blocking_report fs "reports/security/analyze-deltas.md" →
  exit_code h fs (Some "analyze") = 0.
Proof.
  intros Hm Hb. rewrite exit_code_last_failure. simpl phase_of_argument.
  rewrite last_failure_gate; [| done | by apply validators_pass_outside].
  rewrite gate_status_present by done.
  apply findings_verdict_clear. rewrite findings_verdict_blocked.
  intros [(r & Hr & H) _]. apply list_elem_of_singleton in Hr as ->. by apply Hb.
Qed.

End Unscanned.

(** ** The scenarios of the specification *)

Section Scenarios.

Import Hook.

(** Scenario A: plan phase, no plan report. *)
Example scenario_A :
  lint_phase Sample.quiet_host ∅ (Some "plan") =
    (1, [Out "🔍 Running lint_phase hook for: plan";
         Out "→ Validating plugin artifacts for phase: plan";
         Out "  ❌ Missing required plugin artifacts:";
         Out "     - reports/security/plan-scan.md";
         Out "❌ Lint phase failed with code: 1"]).
Proof. vm_compute. reflexivity. Qed.

(** Scenario B: a HIGH finding, no mitigation section, no ledger. *)
Example scenario_B : exit_code Sample.quiet_host Sample.plan_high (Some "plan") = 2.
Proof. vm_compute. reflexivity. Qed.

(** Scenario C: the same with a mitigation section. *)
Example scenario_C : exit_code Sample.quiet_host Sample.plan_high_mitigated (Some "plan") = 0.
Proof. vm_compute. reflexivity. Qed.

(** Scenario D: tasks phase without a Python manifest. *)
Example scenario_D : exit_code Sample.quiet_host ∅ (Some "tasks") = 0.
Proof. vm_compute. reflexivity. Qed.

(** Scenario E: Node lint fails, the Rust chain passes and is run. *)
Example scenario_E :
  exit_code Sample.lint_fails Sample.implement_node_rust (Some "implement") = 1
  ∧ Exec CargoTest 0 ∈ output Sample.lint_fails Sample.implement_node_rust (Some "implement").
Proof. split; [vm_compute; reflexivity |]. apply list_elem_of_In. vm_compute. tauto. Qed.

(** A NUL byte ends the line for the severity scan: label and level on
    either side of one are no finding, a finding next to one is. *)
Example nul_ends_the_line :
  Text.grep_qi_severity Sample.split_report = false
  ∧ exit_code Sample.quiet_host Sample.plan_split (Some "plan") = 0
  ∧ Text.grep_qi_severity Sample.binary_report = true
  ∧ exit_code Sample.quiet_host Sample.plan_binary (Some "plan") = 2.
Proof. split_and!; vm_compute; reflexivity. Qed.

(** No argument means the implement phase. *)
Example default_phase :
  lint_phase Sample.quiet_host Sample.implement_node_rust None
  = lint_phase Sample.quiet_host Sample.implement_node_rust (Some "implement").
Proof. reflexivity. Qed.

End Scenarios.

(** ** The claims *)

Section Claims.

Import Hook Runtime.

(** C1, as amended.  In a phase that scans a security report: when every
    artifact required for the phase exists, the report has a blocking line,
    and neither [plans/plan.md] has a line with "Security Mitigations" nor
    [DECISIONS.md] one with "Security Finding Waiver", artifact validation
    returns 2 and the run ends non-zero; it ends with 2 whenever every
    validator step that runs afterwards succeeds (always so outside the
    implement phase). *)
Theorem unmitigated_finding_exit h fs phase report :
  report ∈ report_files_for phase →
  Policy.missing fs phase = [] →
  blocking_report fs report →
  ¬ documented fs "plans/plan.md" "Security Mitigations" →
  ¬ documented fs "DECISIONS.md" "Security Finding Waiver" →
  gate_status fs phase = 2
  ∧ exit_code h fs (Some phase) ≠ 0
  ∧ (validators_pass h fs phase → exit_code h fs (Some phase) = 2)
  ∧ (String.eqb phase "implement" = false → exit_code h fs (Some phase) = 2).
Proof.
  intros Hr Hm Hb Hp Hw.
  assert (gated_phase phase = true) as Hg
    by (apply reports_need_gated; intros E; rewrite E in Hr; by apply elem_of_nil in Hr).
  assert (gate_status fs phase = 2) as H2.
  { rewrite gate_status_present by done. apply findings_verdict_blocked.
    split; [by exists report | tauto]. }
  rewrite exit_code_last_failure, gated_phase_argument by done.
  split_and!; [done | | |].
  - apply last_failure_gate_failed; [done | lia].
  - intros Hv. by rewrite last_failure_gate.
  - intros Hi. rewrite last_failure_gate; [done | done |].
    by apply validators_pass_outside.
Qed.

Lemma unmitigated_finding_exit_witness :
  gate_status Sample.plan_high "plan" = 2
  ∧ exit_code Sample.quiet_host Sample.plan_high (Some "plan") ≠ 0
  ∧ (validators_pass Sample.quiet_host Sample.plan_high "plan" →
     exit_code Sample.quiet_host Sample.plan_high (Some "plan") = 2)
  ∧ (String.eqb "plan" "implement" = false →
     exit_code Sample.quiet_host Sample.plan_high (Some "plan") = 2).
Proof.
  apply (unmitigated_finding_exit Sample.quiet_host Sample.plan_high "plan"
           "reports/security/plan-scan.md").
  - apply list_elem_of_In. vm_compute. by left.
  - vm_compute. reflexivity.
  - apply has_blocking_finding_spec. vm_compute. reflexivity.
  - intros H. apply file_has_spec in H. vm_compute in H. discriminate.
  - intros H. apply file_has_spec in H. vm_compute in H. discriminate.
Defined.

(** C1 as stated fails in two ways: a required artifact other than the
    security report may be missing (status 1), and in the implement phase a
    validator step that fails later replaces the 2. *)
Lemma unmitigated_finding_exit_not_2 :
  (blocking_report Sample.analyze_high_no_compliance "reports/security/analyze-deltas.md"
   ∧ ¬ documented Sample.analyze_high_no_compliance "plans/plan.md" "Security Mitigations"
   ∧ ¬ documented Sample.analyze_high_no_compliance "DECISIONS.md" "Security Finding Waiver"
   ∧ exit_code Sample.quiet_host Sample.analyze_high_no_compliance (Some "analyze") = 1)
  ∧
  (blocking_report Sample.implement_high_rust "reports/security/implement-scan.md"
   ∧ ¬ documented Sample.implement_high_rust "plans/plan.md" "Security Mitigations"
   ∧ ¬ documented Sample.implement_high_rust "DECISIONS.md" "Security Finding Waiver"
   ∧ exit_code Sample.cargo_test_fails Sample.implement_high_rust (Some "implement") = 101).
Proof.
  split; split_and!;
    try (apply has_blocking_finding_spec; vm_compute; reflexivity);
    try (intros H; apply file_has_spec in H; vm_compute in H; discriminate);
    vm_compute; reflexivity.
Qed.

(** C2, as amended.  For every phase and every path required for it in
    the workspace, when no file is at that path, artifact validation returns
    1, the output of the run has the line naming that path (so all missing
    paths are named, not only the first), and the run ends non-zero; it
    ends with 1 whenever every validator step that runs afterwards succeeds
    (always so outside the implement phase). *)
Theorem missing_artifacts_reported h fs phase path :
  path ∈ Policy.required fs phase →
  fs !! path = None →
  gate_status fs phase = 1
  ∧ Out ("     - " +:+ path) ∈ output h fs (Some phase)
  ∧ exit_code h fs (Some phase) ≠ 0
  ∧ (validators_pass h fs phase → exit_code h fs (Some phase) = 1)
  ∧ (String.eqb phase "implement" = false → exit_code h fs (Some phase) = 1).
Proof.
  intros Hreq Hnone.
  assert (path ∈ Policy.missing fs phase) as Hmiss.
  { unfold Policy.missing. apply list_elem_of_In, filter_In.
    split; [by apply list_elem_of_In |]. by rewrite (proj2 (is_file_false fs path)). }
  assert (Policy.missing fs phase ≠ []) as Hne
    by (intros E; rewrite E in Hmiss; by apply elem_of_nil in Hmiss).
  pose proof (missing_needs_gated fs phase Hne) as Hg.
  pose proof (gate_status_missing fs phase Hne) as H1.
  split_and!; [done | | | |].
  - apply gate_events_output; rewrite gated_phase_argument by done; [done |].
    by apply gate_events_missing.
  - rewrite exit_code_last_failure, gated_phase_argument by done.
    apply last_failure_gate_failed; [done | lia].
  - intros Hv. rewrite exit_code_last_failure, gated_phase_argument by done.
    by rewrite last_failure_gate.
  - intros Hi. rewrite exit_code_last_failure, gated_phase_argument by done.
    rewrite last_failure_gate; [done | done |]. by apply validators_pass_outside.
Qed.

Lemma missing_artifacts_reported_witness :
  gate_status Sample.analyze_nothing "analyze" = 1
  ∧ Out ("     - " +:+ "reports/compliance/analyze-compliance.md")
      ∈ output Sample.quiet_host Sample.analyze_nothing (Some "analyze")
  ∧ exit_code Sample.quiet_host Sample.analyze_nothing (Some "analyze") ≠ 0
  ∧ (validators_pass Sample.quiet_host Sample.analyze_nothing "analyze" →
     exit_code Sample.quiet_host Sample.analyze_nothing (Some "analyze") = 1)
  ∧ (String.eqb "analyze" "implement" = false →
     exit_code Sample.quiet_host Sample.analyze_nothing (Some "analyze") = 1).
Proof.
  apply (missing_artifacts_reported Sample.quiet_host Sample.analyze_nothing "analyze"
           "reports/compliance/analyze-compliance.md").
  - apply list_elem_of_In. vm_compute. right. by left.
  - vm_compute. reflexivity.
Defined.

(** C2 as stated fails in the implement phase: the artifact is missing and
    named, and the run ends with the status of [cargo test], not with 1. *)
Lemma missing_artifact_exit_not_1 :
  "reports/security/implement-scan.md" ∈ Policy.required Sample.implement_missing_rust "implement"
  ∧ Sample.implement_missing_rust !! "reports/security/implement-scan.md" = None
  ∧ exit_code Sample.cargo_test_fails Sample.implement_missing_rust (Some "implement") = 101.
Proof.
  split_and!; [apply list_elem_of_In; vm_compute; by left | |]; vm_compute; reflexivity.
Qed.

(** C3, as amended.  With the artifacts of the phase in place and a
    blocking line in its security report, the finding is resolved exactly
    when [plans/plan.md] has a line containing "Security Mitigations" or
    [DECISIONS.md] has a line containing "Security Finding Waiver"; nothing
    about an owner or a timeline is looked for.  Otherwise artifact
    validation returns 2. *)
Theorem mitigation_resolution fs phase report :
  report ∈ report_files_for phase →
  Policy.missing fs phase = [] →
  blocking_report fs report →
  (gate_status fs phase = 0 ↔
     documented fs "plans/plan.md" "Security Mitigations" ∨
     documented fs "DECISIONS.md" "Security Finding Waiver")
  ∧ (gate_status fs phase = 2 ↔
     ¬ (documented fs "plans/plan.md" "Security Mitigations" ∨
        documented fs "DECISIONS.md" "Security Finding Waiver")).
Proof.
  intros Hr Hm Hb. rewrite gate_status_present by done.
  rewrite findings_verdict_clear, findings_verdict_blocked.
  rewrite <- mitigation_on_file_spec.
  destruct (mitigation_on_file fs); split; split; try done; try tauto.
  - intros H. exfalso. apply H. split; [by exists report | done].
  - intros _. split; [by exists report | done].
Qed.

Lemma mitigation_resolution_witness :
  (gate_status Sample.plan_high_header_only "plan" = 0 ↔
     documented Sample.plan_high_header_only "plans/plan.md" "Security Mitigations" ∨
     documented Sample.plan_high_header_only "DECISIONS.md" "Security Finding Waiver")
  ∧ (gate_status Sample.plan_high_header_only "plan" = 2 ↔
     ¬ (documented Sample.plan_high_header_only "plans/plan.md" "Security Mitigations" ∨
        documented Sample.plan_high_header_only "DECISIONS.md" "Security Finding Waiver")).
Proof.
  apply (mitigation_resolution Sample.plan_high_header_only "plan"
           "reports/security/plan-scan.md").
  - apply list_elem_of_In. vm_compute. by left.
  - vm_compute. reflexivity.
  - apply has_blocking_finding_spec. vm_compute. reflexivity.
Defined.

(** C3 as stated fails: a plan with the section header and no owner or
    timeline token, no waiver ledger, and the blocking finding counts as
    resolved: the run ends with 0. *)
Lemma header_alone_resolves :
  blocking_report Sample.plan_high_header_only "reports/security/plan-scan.md"
  ∧ documented Sample.plan_high_header_only "plans/plan.md" "Security Mitigations"
  ∧ Policy.owner_timeline_marker Sample.header_only_plan = false
  ∧ Sample.plan_high_header_only !! "DECISIONS.md" = None
  ∧ gate_status Sample.plan_high_header_only "plan" = 0
  ∧ exit_code Sample.quiet_host Sample.plan_high_header_only (Some "plan") = 0.
Proof.
  split_and!;
    [apply has_blocking_finding_spec | apply file_has_spec | | | |];
    vm_compute; reflexivity.
Qed.

(** C4, as amended.  The exit code of a run is the status of the last
    step that failed, in script order: artifact validation, then the Node
    steps, then the Rust steps.  It is 0 exactly when no step failed, so a
    failure of artifact validation is never replaced by a validator that
    passes; a later step that fails does replace it. *)
Theorem exit_code_is_last_failure h fs arg :
  exit_code h fs arg = last_failure (step_statuses h fs (phase_of_argument arg))
  ∧ (exit_code h fs arg = 0 ↔
     Forall (fun c => c = 0) (step_statuses h fs (phase_of_argument arg)))
  ∧ (∀ cs c, c ≠ 0 → last_failure (cs ++ [c]) = c)
  ∧ (∀ cs c, last_failure (cs ++ [c; 0]) = last_failure (cs ++ [c])).
Proof.
  split_and!.
  - apply exit_code_last_failure.
  - rewrite exit_code_last_failure. apply last_failure_zero.
  - intros cs c Hc. unfold last_failure. rewrite fold_left_app. simpl.
    unfold record. by destruct (c =? 0) eqn:E; [apply Z.eqb_eq in E |].
  - intros cs c. unfold last_failure. by rewrite !fold_left_app.
Qed.

(** C4 as stated fails: the missing artifact (status 1) and, in the second
    workspace, the unmitigated finding (status 2) are recorded first, and
    the run ends with the status of [cargo test]. *)
Lemma gate_failure_replaced :
  (gate_status Sample.implement_missing_rust "implement" = 1
   ∧ exit_code Sample.cargo_test_fails Sample.implement_missing_rust (Some "implement") = 101)
  ∧ (gate_status Sample.implement_high_rust "implement" = 2
     ∧ exit_code Sample.cargo_test_fails Sample.implement_high_rust (Some "implement") = 101).
Proof. split_and!; vm_compute; reflexivity. Qed.

(** Artifact validation, of which the mitigation lookup is a part, never
    returns 3. *)
Lemma gate_status_never_3 fs phase : gate_status fs phase ≠ 3.
Proof. destruct (gate_status_cases fs phase) as [-> | [-> | ->]]; lia. Qed.

(** A run that ends with 3 has a validator step that ended with 3. *)
Lemma exit_3_from_validator h fs arg :
  exit_code h fs arg = 3 → 3 ∈ validator_statuses h fs (phase_of_argument arg).
Proof.
  rewrite exit_code_last_failure. unfold last_failure. intros E.
  destruct (fold_record_origin (step_statuses h fs (phase_of_argument arg)) 0)
    as [H0 | Hin]; [rewrite H0 in E; discriminate |].
  rewrite E in Hin. unfold step_statuses in Hin.
  apply elem_of_app in Hin as [Hin | Hin]; [| done].
  destruct (gated_phase _); [| by apply elem_of_nil in Hin].
  apply list_elem_of_singleton in Hin. symmetry in Hin.
  by apply gate_status_never_3 in Hin.
Qed.

(** C5, as amended.  The hook has no validity check of the mitigation plan
    or of the waiver ledger: artifact validation never returns 3, and a run
    ends with 3 only when a validator step itself ended with 3.  A document
    that is there without its marker counts as no document: with a finding
    on file and a mitigation plan that is there but empty, the run ends
    with 2; with a plan that has the bare header, it ends with 0. *)
Theorem invalid_mitigation_never_3 h fs arg :
  gate_status fs (phase_of_argument arg) ≠ 3
  ∧ (exit_code h fs arg ≠ 3 ∨ 3 ∈ validator_statuses h fs (phase_of_argument arg))
  ∧ exit_code Sample.quiet_host Sample.plan_high_empty_plan (Some "plan") = 2
  ∧ exit_code Sample.quiet_host Sample.plan_high_header_only (Some "plan") = 0.
Proof.
  split_and!; [apply gate_status_never_3 | | vm_compute; reflexivity | vm_compute; reflexivity].
  destruct (decide (exit_code h fs arg = 3)) as [E | Hne]; [| by left].
  right. by apply exit_3_from_validator.
Qed.

(** C5 as stated fails: there is no workspace and no phase for which
    artifact validation returns 3, and no run ends with 3 unless one of its
    validator steps did.  The two documents that are on file and would
    fail a validity check, an empty mitigation plan and a plan with the
    header and nothing else, give 2 and 0. *)
Lemma no_exit_3_for_mitigation :
  (¬ ∃ fs phase, gate_status fs phase = 3)
  ∧ (¬ ∃ h fs arg, exit_code h fs arg = 3
                   ∧ 3 ∉ validator_statuses h fs (phase_of_argument arg))
  ∧ (Sample.plan_high_empty_plan !! "plans/plan.md" = Some ""
     ∧ blocking_report Sample.plan_high_empty_plan "reports/security/plan-scan.md"
     ∧ exit_code Sample.quiet_host Sample.plan_high_empty_plan (Some "plan") = 2)
  ∧ (Sample.plan_high_header_only !! "plans/plan.md" = Some Sample.header_only_plan
     ∧ Policy.owner_timeline_marker Sample.header_only_plan = false
     ∧ blocking_report Sample.plan_high_header_only "reports/security/plan-scan.md"
     ∧ exit_code Sample.quiet_host Sample.plan_high_header_only (Some "plan") = 0).
Proof.
  split_and!;
    try (apply has_blocking_finding_spec; vm_compute; reflexivity);
    try (vm_compute; reflexivity).
  - intros (fs & phase & E). by apply gate_status_never_3 in E.
  - intros (h & fs & arg & E & Hn). by apply exit_3_from_validator in E.
Qed.

(** C6, as amended.  A phase name outside spec, plan, tasks, implement and
    analyze is refused by the plugin runtime only: it prints "Unknown
    phase" and ends with 1.  The hook takes such a name as a phase with
    nothing to check and ends with 0, and the CI entry point, which ignores
    the status of the runtime, ends with 0 as well; so does the hook
    without artifact validation.  Only an empty or absent argument makes
    the CI entry point end non-zero, with 2. *)
Theorem unknown_phase_passes h var fs phase :
  phase ≠ "" →
  phase ∉ ["spec"; "plan"; "tasks"; "implement"; "analyze"] →
  plugins_runtime h var (Some phase) {| files := fs; journal := [] |}
    = (1, {| files := fs; journal := [Err ("Unknown phase: " +:+ phase)] |})
  ∧ exit_code h fs (Some phase) = 0
  ∧ fst (lint_phase_plain h fs (Some phase)) = 0
  ∧ fst (CI.run_phase_checks h var fs (Some phase)) = 0
  ∧ fst (CI.run_phase_checks h var fs (Some "")) = 2
  ∧ fst (CI.run_phase_checks h var fs None) = 2.
Proof.
  intros Hne Hout.
  assert (String.eqb phase "spec" = false ∧ String.eqb phase "plan" = false ∧
          String.eqb phase "tasks" = false ∧ String.eqb phase "implement" = false ∧
          String.eqb phase "analyze" = false) as (E1 & E2 & E3 & E4 & E5).
  { split_and!; apply String.eqb_neq; intros ->; apply Hout; set_solver. }
  assert (exit_code h fs (Some phase) = 0) as Hexit.
  { intros. rewrite exit_code_last_failure.
    unfold phase_of_argument. rewrite (proj2 (String.eqb_neq phase "")) by done.
    unfold step_statuses, validator_statuses, gated_phase, node_runs, rust_runs.
    by rewrite E1, E2, E3, E4, E5, !andb_false_r. }
  split_and!; [| done | | | done | done].
  - unfold plugins_runtime. cbv zeta. change (default "" (Some phase)) with phase.
    rewrite E1, E2, E3, E4, E5.
    by destruct (String.eqb (mode_of var) "claude").
  - rewrite exit_code_plain.
    unfold phase_of_argument. rewrite (proj2 (String.eqb_neq phase "")) by done.
    unfold validator_statuses, node_runs, rust_runs.
    by rewrite E4, !andb_false_r.
  - unfold CI.run_phase_checks. cbv zeta. change (default "" (Some phase)) with phase.
    rewrite (proj2 (String.eqb_neq phase "")) by done.
    match goal with |- context [lint_phase h ?fs' (Some phase)] =>
      assert (exit_code h fs' (Some phase) = 0) as Hexit';
      [| unfold exit_code in Hexit'; destruct (lint_phase h fs' (Some phase)) as [c evs] ]
    end.
    + rewrite exit_code_last_failure.
      unfold phase_of_argument. rewrite (proj2 (String.eqb_neq phase "")) by done.
      unfold step_statuses, validator_statuses, gated_phase, node_runs, rust_runs.
      by rewrite E1, E2, E3, E4, E5, !andb_false_r.
    + simpl in Hexit'. by rewrite Hexit'.
Qed.

Lemma unknown_phase_passes_witness :
  plugins_runtime Sample.quiet_host None (Some "review")
      {| files := Sample.after_plan; journal := [] |}
    = (1, {| files := Sample.after_plan;
             journal := [Err ("Unknown phase: " +:+ "review")] |})
  ∧ exit_code Sample.quiet_host Sample.after_plan (Some "review") = 0
  ∧ fst (lint_phase_plain Sample.quiet_host Sample.after_plan (Some "review")) = 0
  ∧ fst (CI.run_phase_checks Sample.quiet_host None Sample.after_plan (Some "review")) = 0
  ∧ fst (CI.run_phase_checks Sample.quiet_host None Sample.after_plan (Some "")) = 2
  ∧ fst (CI.run_phase_checks Sample.quiet_host None Sample.after_plan None) = 2.
Proof.
  apply (unknown_phase_passes Sample.quiet_host None Sample.after_plan "review").
  - discriminate.
  - intros H. apply list_elem_of_In in H. vm_compute in H. intuition discriminate.
Defined.

(** C6 as stated fails: "foo" is none of the seven phase names, and both
    the CI entry point and the hook end with 0 on it. *)
Lemma unknown_phase_exit_zero :
  ("foo" ∉ Policy.phase_names)
  ∧ fst (CI.run_phase_checks Sample.quiet_host None Sample.after_plan (Some "foo")) = 0
  ∧ exit_code Sample.quiet_host Sample.after_plan (Some "foo") = 0.
Proof.
  split_and!; [| vm_compute; reflexivity | vm_compute; reflexivity].
  intros H. apply list_elem_of_In in H. vm_compute in H. intuition discriminate.
Qed.

(** C7, as amended.  The severity check returns 2 exactly when the report
    of the phase has a line in which, letters folded to lower case,
    "severity" occurs and "critical" or "high" occurs after it with no NUL
    byte in between, and neither document carries its marker.  The bare
    word without the label "severity" before it on the same line is no
    finding. *)
Theorem severity_scan_wants_label fs phase :
  findings_status fs phase = 2 ↔
  (∃ report text line,
      report ∈ report_files_for phase ∧ fs !! report = Some text ∧
      line ∈ Text.lines text ∧
      (occurs_then "severity" "critical" (Text.lower line) ∨
       occurs_then "severity" "high" (Text.lower line)))
  ∧ ¬ (documented fs "plans/plan.md" "Security Mitigations" ∨
       documented fs "DECISIONS.md" "Security Finding Waiver").
Proof.
  rewrite findings_status_verdict, findings_verdict_blocked.
  unfold blocking_report, blocking_line. split.
  - intros [(r & Hr & t & l & Ht & Hl & H) Hn]. split; [| done]. by exists r, t, l.
  - intros [(r & t & l & Hr & Ht & Hl & H) Hn]. split; [| done].
    exists r. split; [done |]. by exists t, l.
Qed.

(** C7 as stated fails: the report contains the word CRITICAL in prose, no
    mitigation is on file, and the scan finds nothing: the run ends with 0. *)
Lemma bare_keyword_is_no_finding :
  occurs "CRITICAL" Sample.prose_report
  ∧ Text.grep_qi_severity Sample.prose_report = false
  ∧ Sample.plan_prose !! "plans/plan.md" = None
  ∧ Sample.plan_prose !! "DECISIONS.md" = None
  ∧ findings_status Sample.plan_prose "plan" = 0
  ∧ exit_code Sample.quiet_host Sample.plan_prose (Some "plan") = 0.
Proof.
  split_and!; [apply contains_spec | | | | |]; vm_compute; reflexivity.
Qed.

(** C8, as amended.  The commands a run starts are fixed by the workspace
    and the phase alone: in the implement phase, with [package.json], the
    four Node steps lint, prettier, typecheck, test all run in that order,
    each trying pnpm and then, when that fails, npm or npx; with
    [Cargo.toml], cargo fmt, clippy and test all run.  A step that fails
    stops neither the rest of its own chain nor the other chain.  The
    script without artifact validation starts the same commands. *)
Theorem validator_steps_all_run h fs arg :
  started (output h fs arg) = validator_tools h fs (phase_of_argument arg)
  ∧ started (snd (lint_phase_plain h fs arg)) = validator_tools h fs (phase_of_argument arg)
  ∧ (node_runs fs (phase_of_argument arg) = true →
     PnpmRunLint ∈ started (output h fs arg) ∧
     PnpmExecPrettier ∈ started (output h fs arg) ∧
     PnpmRunTypecheck ∈ started (output h fs arg) ∧
     PnpmRunTest ∈ started (output h fs arg))
  ∧ (rust_runs fs (phase_of_argument arg) = true →
     CargoFmt ∈ started (output h fs arg) ∧
     CargoClippy ∈ started (output h fs arg) ∧
     CargoTest ∈ started (output h fs arg)).
Proof.
  rewrite started_output, started_output_plain.
  unfold validator_tools, node_tools, fallback_tools, rust_tools.
  split_and!; [done | done | |]; intros ->; set_solver.
Qed.

(** C8 as stated fails: lint fails under both pnpm and npm, and prettier,
    typecheck and test of the same chain are started all the same (as is
    the Rust chain). *)
Lemma chain_runs_past_failure :
  fallback_status Sample.lint_fails PnpmRunLint NpmRunLint = 1
  ∧ started (output Sample.lint_fails Sample.implement_node_rust (Some "implement"))
    = [PnpmRunLint; NpmRunLint; PnpmExecPrettier; PnpmRunTypecheck; PnpmRunTest;
       CargoFmt; CargoClippy; CargoTest].
Proof. split; vm_compute; reflexivity. Qed.

(** C9, as amended.  When the three producer scripts that come with the
    host remove no file, a run of the invoker removes none either, with one
    exception: outside claude mode the implement phase moves
    [reports/security/plan-scan.md] to [reports/security/implement-scan.md],
    so after a run that ends with 0 the plan report is gone from its path. *)
Theorem invoker_keeps_files h var arg fs :
  preserves (generate_threat_model h) →
  preserves (merge_audits h) →
  preserves (generate_compliance_report h) →
  (∀ p, is_Some (fs !! p) →
        (mode_of var = "claude" ∨ arg ≠ Some "implement"
         ∨ p ≠ "reports/security/plan-scan.md") →
        is_Some (files_after h var arg fs !! p))
  ∧ (mode_of var ≠ "claude" → arg = Some "implement" →
     fst (plugins_runtime h var arg {| files := fs; journal := [] |}) = 0 →
     files_after h var arg fs !! "reports/security/plan-scan.md" = None
     ∧ is_Some (files_after h var arg fs !! "reports/security/implement-scan.md")).
Proof.
  intros Ht Hm Hc. split.
  - intros p Hp Hcase. unfold files_after.
    destruct (String.eqb_spec (mode_of var) "claude") as [Hmode | Hmode].
    { apply (keeps_claude h var arg); [by apply String.eqb_eq | apply not_elem_of_nil | done]. }
    apply (keeps_cli h var arg Ht Hm Hc); [by apply String.eqb_neq | | done].
    destruct (String.eqb_spec (default "" arg) "implement") as [Harg | _];
      [| apply not_elem_of_nil].
    destruct Hcase as [? | [Hcase | Hcase]];
      [done | | by intros ?%list_elem_of_singleton].
    destruct arg as [a|]; simpl in Harg; [subst a; by destruct Hcase | done].
  - intros Hmode -> H0. unfold files_after in *. revert H0.
    unfold plugins_runtime. rewrite (proj2 (String.eqb_neq _ _) Hmode). simpl.
    apply implement_moves_plan_scan.
Qed.

Lemma invoker_keeps_files_witness :
  (∀ p, is_Some (Sample.after_plan !! p) →
        (mode_of None = "claude" ∨ Some "implement" ≠ Some "implement"
         ∨ p ≠ "reports/security/plan-scan.md") →
        is_Some (files_after Sample.quiet_host None (Some "implement") Sample.after_plan !! p))
  ∧ (mode_of None ≠ "claude" → Some "implement" = Some "implement" →
     fst (plugins_runtime Sample.quiet_host None (Some "implement")
            {| files := Sample.after_plan; journal := [] |}) = 0 →
     files_after Sample.quiet_host None (Some "implement") Sample.after_plan
       !! "reports/security/plan-scan.md" = None
     ∧ is_Some (files_after Sample.quiet_host None (Some "implement") Sample.after_plan
                  !! "reports/security/implement-scan.md")).
Proof.
  apply (invoker_keeps_files Sample.quiet_host None (Some "implement") Sample.after_plan);
    intros fs p Hp; exact Hp.
Defined.

(** C9 as stated fails: the plan report is there before the implement
    phase is populated in the default mode, and it is not there after. *)
Lemma implement_removes_plan_scan :
  is_Some (Sample.after_plan !! "reports/security/plan-scan.md")
  ∧ fst (plugins_runtime Sample.quiet_host None (Some "implement")
           {| files := Sample.after_plan; journal := [] |}) = 0
  ∧ files_after Sample.quiet_host None (Some "implement") Sample.after_plan
      !! "reports/security/plan-scan.md" = None.
Proof.
  split_and!; [apply is_file_true | |]; vm_compute; reflexivity.
Qed.

(** C10.  The severity check reads the security report of the phase and
    nothing else, and reads none in the tasks phase: with the required
    artifacts in place the tasks phase ends with 0 whatever they contain,
    the analyze phase ends with 0 when the deltas report has no blocking
    line, and replacing the text of [reports/tests/tasks-unit-help.md] or
    of [reports/compliance/analyze-compliance.md] changes neither the exit
    code nor the output of any run. *)
Theorem unscanned_reports_never_block h fs :
  (Policy.missing fs "tasks" = [] → exit_code h fs (Some "tasks") = 0)
  ∧ (Policy.missing fs "analyze" = [] →
     ¬ blocking_report fs "reports/security/analyze-deltas.md" →
     exit_code h fs (Some "analyze") = 0)
  ∧ (∀ path text arg,
       path ∈ ["reports/tests/tasks-unit-help.md";
               "reports/compliance/analyze-compliance.md"] →
       is_Some (fs !! path) →
       lint_phase h (<[path := text]> fs) arg = lint_phase h fs arg).
Proof.
  split_and!.
  - apply exit_code_tasks.
  - apply exit_code_analyze.
  - intros path text arg. apply lint_phase_insert.
Qed.

Lemma unscanned_reports_never_block_witness :
  (Text.grep_qi_severity ("Severity: CRITICAL" +:+ nl) = true
   ∧ exit_code Sample.quiet_host Sample.tasks_with_label (Some "tasks") = 0)
  ∧ exit_code Sample.quiet_host Sample.analyze_with_label (Some "analyze") = 0.
Proof.
  split; [split; [vm_compute; reflexivity |] |].
  - apply (proj1 (unscanned_reports_never_block Sample.quiet_host Sample.tasks_with_label)).
    vm_compute. reflexivity.
  - apply (proj1 (proj2 (unscanned_reports_never_block Sample.quiet_host
                           Sample.analyze_with_label))).
    + vm_compute. reflexivity.
    + intros H. apply has_blocking_finding_spec in H. vm_compute in H. discriminate.
Defined.

End Claims.

(** ** Further properties of the hook *)

Section HookFacts.

Import Hook.

Lemma append_empty_r (a : string) : a +:+ "" = a.
Proof.
  induction a as [|x a IH]; [done |].
  change (String x (a +:+ "") = String x a). by rewrite IH.
Qed.

Lemma append_assoc (a b c : string) : (a +:+ b) +:+ c = a +:+ (b +:+ c).
Proof.
  induction a as [|x a IH]; [done |].
  change (String x ((a +:+ b) +:+ c) = String x (a +:+ (b +:+ c))). by rewrite IH.
Qed.

Lemma lower_ascii_LF c : Ascii.eqb (Text.lower_ascii c) Text.LF = Ascii.eqb c Text.LF.
Proof. destruct c as [[] [] [] [] [] [] [] []]; vm_compute; reflexivity. Qed.

Lemma lower_ascii_idem c : Text.lower_ascii (Text.lower_ascii c) = Text.lower_ascii c.
Proof. destruct c as [[] [] [] [] [] [] [] []]; vm_compute; reflexivity. Qed.

Lemma lower_idem s : Text.lower (Text.lower s) = Text.lower s.
Proof. induction s as [|c s IH]; simpl; [done | by rewrite lower_ascii_idem, IH]. Qed.

Lemma lower_append a b : Text.lower (a +:+ b) = Text.lower a +:+ Text.lower b.
Proof.
  induction a as [|c a IH]; [done |].
  change (String (Text.lower_ascii c) (Text.lower (a +:+ b))
          = String (Text.lower_ascii c) (Text.lower a +:+ Text.lower b)).
  by rewrite IH.
Qed.

Lemma lines_acc_lower cur s :
  Text.lines_acc (Text.lower cur) (Text.lower s) = map Text.lower (Text.lines_acc cur s).
Proof.
  revert cur. induction s as [|c s IH]; intros cur; simpl; [done |].
  rewrite lower_ascii_LF. destruct (Ascii.eqb c Text.LF).
  - simpl. f_equal. apply (IH "").
  - rewrite <- IH. by rewrite lower_append.
Qed.

Lemma severity_line_lower l : Text.severity_line (Text.lower l) = Text.severity_line l.
Proof. unfold Text.severity_line. by rewrite lower_idem. Qed.

Lemma grep_qi_severity_lower text :
  Text.grep_qi_severity (Text.lower text) = Text.grep_qi_severity text.
Proof.
  unfold Text.grep_qi_severity, Text.lines.
  change (Text.lines_acc "" (Text.lower text))
    with (Text.lines_acc (Text.lower "") (Text.lower text)).
  rewrite (lines_acc_lower "" text).
  induction (Text.lines_acc "" text) as [|l ls IH]; simpl; [done |].
  by rewrite severity_line_lower, IH.
Qed.

Lemma finish_line c l :
  0 ≤ c < 256 →
  finish {| EXIT_CODE := c; emitted := l |}
  = (c, {| EXIT_CODE := c;
           emitted := l ++ [Out (if c =? 0 then "✅ Lint phase passed"
                                 else "❌ Lint phase failed with code: " +:+ show_status c)] |}).
Proof.
  intros Hc. unfold finish, mbind, hook_bind, get_EXIT_CODE. simpl.
  destruct (c =? 0) eqn:E; simpl.
  - by apply Z.eqb_eq in E as ->.
  - unfold wait_status. by rewrite Z.mod_small.
Qed.

Lemma lint_phase_closing h fs arg :
  ∃ evs, lint_phase h fs arg =
    (exit_code h fs arg,
     evs ++ [Out (if exit_code h fs arg =? 0 then "✅ Lint phase passed"
                  else "❌ Lint phase failed with code: "
                       +:+ show_status (exit_code h fs arg))]).
Proof.
  rewrite exit_code_last_failure.
  set (phase := phase_of_argument arg).
  destruct (block_node_checks h fs phase) as (evn & Hn & _).
  destruct (block_rust_checks h fs phase) as (evr & Hr & _).
  pose proof (last_failure_range h fs phase) as Hrange.
  unfold last_failure, step_statuses, validator_statuses in Hrange |- *.
  rewrite !fold_left_app in Hrange |- *.
  eexists. unfold lint_phase, main. fold phase.
  rewrite (runs_then _ _ _ _ _ _ (runs_echo _)).
  rewrite (runs_then _ _ _ _ _ _ (runs_gate fs phase)).
  rewrite (runs_then _ _ _ _ _ _ Hn).
  rewrite (runs_then _ _ _ _ _ _ Hr).
  simpl. rewrite finish_line by exact Hrange. reflexivity.
Qed.

Lemma fallback_status_zero h a b :
  fallback_status h a b = 0 ↔ status_of h a = 0 ∨ status_of h b = 0.
Proof.
  unfold fallback_status. destruct (status_of h a =? 0) eqn:E.
  - apply Z.eqb_eq in E. tauto.
  - apply Z.eqb_neq in E. tauto.
Qed.

Lemma gate_events_listing fs phase :
  Policy.missing fs phase ≠ [] →
  gate_events fs phase =
    [Out ("→ Validating plugin artifacts for phase: " +:+ phase);
     Out "  ❌ Missing required plugin artifacts:"] ++
    map (fun a => Out ("     - " +:+ a)) (Policy.missing fs phase).
Proof.
  intros Hne.
  assert (runs (validate_plugin_artifacts fs phase) 1 []
            ([Out ("→ Validating plugin artifacts for phase: " +:+ phase)] ++
             [Out "  ❌ Missing required plugin artifacts:"] ++
             map (fun a => Out ("     - " +:+ a)) (Policy.missing fs phase) ++ [])) as H.
  { unfold validate_plugin_artifacts. rewrite missing_artifacts_for_policy.
    destruct (Policy.missing fs phase) as [|q l] eqn:E; [done |].
    simpl (0 <? _)%nat. cbv iota.
    change (@nil Z) with (@nil Z ++ @nil Z ++ @nil Z ++ @nil Z).
    eapply runs_bind; [apply runs_echo |].
    eapply runs_bind; [apply runs_echo |].
    eapply runs_bind; [apply runs_for_each | apply runs_ret]. }
  apply runs_from_start in H as [_ H]. unfold gate_events. rewrite H.
  by rewrite app_nil_r.
Qed.

(** X1.  The tasks phase ends with 1 exactly when a Python manifest
    ([requirements.txt] or [pyproject.toml]) is there and
    [reports/tests/tasks-unit-help.md] is not; in every other workspace it
    ends with 0, whatever else is on file and whatever the host. *)
Theorem tasks_phase_exit h fs :
  exit_code h fs (Some "tasks") =
    if ((is_file fs "requirements.txt" || is_file fs "pyproject.toml")
        && negb (is_file fs "reports/tests/tasks-unit-help.md"))%bool
    then 1 else 0.
Proof.
  rewrite exit_code_last_failure. simpl phase_of_argument.
  rewrite last_failure_gate; [| done | by apply validators_pass_outside].
  rewrite gate_status_verdict. unfold gate_verdict, missing_artifacts_for, note_missing.
  simpl. destruct (is_file fs "requirements.txt" || is_file fs "pyproject.toml")%bool;
    simpl; [| done].
  by destruct (is_file fs "reports/tests/tasks-unit-help.md").
Qed.

(** X2.  Outside the implement phase the hook starts none of the
    validator commands (the pnpm, npm, npx and cargo steps), also when
    [package.json] and [Cargo.toml] are there; the [grep] calls of
    artifact validation are not counted among them.  Its exit code is what
    artifact validation returned: 0, 1 or 2 for a gated phase, 0 for any
    other name. *)
Theorem only_implement_runs_validators h fs arg :
  String.eqb (phase_of_argument arg) "implement" = false →
  started (output h fs arg) = []
  ∧ exit_code h fs arg =
      (if gated_phase (phase_of_argument arg)
       then gate_status fs (phase_of_argument arg) else 0)
  ∧ 0 ≤ exit_code h fs arg ≤ 2.
Proof.
  intros Hp.
  assert (validator_statuses h fs (phase_of_argument arg) = []) as Hv
    by (unfold validator_statuses, node_runs, rust_runs; by rewrite Hp, !andb_false_r).
  assert (exit_code h fs arg =
            (if gated_phase (phase_of_argument arg)
             then gate_status fs (phase_of_argument arg) else 0)) as He.
  { rewrite exit_code_last_failure. unfold last_failure, step_statuses. rewrite Hv.
    destruct (gated_phase _); [| done]. simpl. unfold record.
    destruct (gate_status fs _ =? 0) eqn:E; [by apply Z.eqb_eq in E | done]. }
  split; [| split; [done |]].
  - rewrite started_output. unfold validator_tools, node_runs, rust_runs.
    by rewrite Hp, !andb_false_r.
  - rewrite He. destruct (gated_phase _); [| lia].
    destruct (gate_status_cases fs (phase_of_argument arg)) as [-> | [-> | ->]]; lia.
Qed.

Lemma only_implement_runs_validators_witness :
  started (output Sample.lint_fails Sample.implement_node_rust (Some "plan")) = []
  ∧ exit_code Sample.lint_fails Sample.implement_node_rust (Some "plan") =
      (if gated_phase (phase_of_argument (Some "plan"))
       then gate_status Sample.implement_node_rust (phase_of_argument (Some "plan")) else 0)
  ∧ 0 ≤ exit_code Sample.lint_fails Sample.implement_node_rust (Some "plan") ≤ 2.
Proof.
  apply (only_implement_runs_validators Sample.lint_fails Sample.implement_node_rust
           (Some "plan")).
  reflexivity.
Defined.

(** X3.  When a required artifact is missing, artifact validation prints
    its heading, the line announcing missing artifacts and one line per
    missing path, in the order of the table, and nothing else: the severity
    check is not reached, so findings in the reports that do exist are not
    reported in that run. *)
Theorem missing_artifacts_hide_findings fs phase :
  Policy.missing fs phase ≠ [] →
  gate_status fs phase = 1
  ∧ gate_events fs phase =
      [Out ("→ Validating plugin artifacts for phase: " +:+ phase);
       Out "  ❌ Missing required plugin artifacts:"] ++
      map (fun a => Out ("     - " +:+ a)) (Policy.missing fs phase).
Proof.
  intros Hne. split; [by apply gate_status_missing | by apply gate_events_listing].
Qed.

Lemma missing_artifacts_hide_findings_witness :
  gate_status Sample.analyze_high_no_compliance "analyze" = 1
  ∧ gate_events Sample.analyze_high_no_compliance "analyze" =
      [Out ("→ Validating plugin artifacts for phase: " +:+ "analyze");
       Out "  ❌ Missing required plugin artifacts:"] ++
      map (fun a => Out ("     - " +:+ a))
          (Policy.missing Sample.analyze_high_no_compliance "analyze").
Proof.
  apply (missing_artifacts_hide_findings Sample.analyze_high_no_compliance "analyze").
  vm_compute. discriminate.
Defined.

(** X4.  The last line a run prints agrees with its exit code: the line
    of success exactly when the run ends with 0, and otherwise the line of
    failure carrying the exit code in decimal. *)
Theorem closing_line_agrees h fs arg :
  last (output h fs arg) =
    Some (Out (if exit_code h fs arg =? 0 then "✅ Lint phase passed"
               else "❌ Lint phase failed with code: "
                    +:+ show_status (exit_code h fs arg))).
Proof.
  destruct (lint_phase_closing h fs arg) as [evs H].
  unfold output. rewrite H. simpl. apply last_snoc.
Qed.

(** X5.  A run passes exactly when artifact validation returned 0 (in a
    gated phase), every Node step that ran succeeded under pnpm or under its
    npm/npx fallback, and every cargo step that ran succeeded. *)
Theorem pass_exactly_when h fs arg :
  exit_code h fs arg = 0 ↔
  (gated_phase (phase_of_argument arg) = true → gate_status fs (phase_of_argument arg) = 0)
  ∧ (node_runs fs (phase_of_argument arg) = true →
       (status_of h PnpmRunLint = 0 ∨ status_of h NpmRunLint = 0)
     ∧ (status_of h PnpmExecPrettier = 0 ∨ status_of h NpxPrettier = 0)
     ∧ (status_of h PnpmRunTypecheck = 0 ∨ status_of h NpmRunTypecheck = 0)
     ∧ (status_of h PnpmRunTest = 0 ∨ status_of h NpmRunTest = 0))
  ∧ (rust_runs fs (phase_of_argument arg) = true →
       status_of h CargoFmt = 0 ∧ status_of h CargoClippy = 0 ∧ status_of h CargoTest = 0).
Proof.
  rewrite exit_code_last_failure, last_failure_zero.
  unfold step_statuses, validator_statuses, node_statuses, rust_statuses.
  rewrite !Forall_app.
  destruct (gated_phase _), (node_runs _ _), (rust_runs _ _);
    rewrite ?Forall_cons, ?Forall_nil, ?fallback_status_zero; intuition congruence.
Qed.

(** X6.  The severity scan does not see letter case: two reports that
    agree once their ASCII letters are folded to lower case get the same
    verdict. *)
Theorem severity_scan_ignores_case a b :
  Text.lower a = Text.lower b → Text.grep_qi_severity a = Text.grep_qi_severity b.
Proof.
  intros H. rewrite <- (grep_qi_severity_lower a), <- (grep_qi_severity_lower b).
  by rewrite H.
Qed.

Lemma severity_scan_ignores_case_witness :
  Text.grep_qi_severity "SEVERITY: High" = Text.grep_qi_severity "severity: hIGH".
Proof. apply (severity_scan_ignores_case "SEVERITY: High" "severity: hIGH"). reflexivity. Defined.

(** X7.  The mitigation lookup does not depend on the finding or on the
    phase: once [plans/plan.md] has a line with "Security Mitigations", or
    [DECISIONS.md] one with "Security Finding Waiver", the severity check
    returns 0 in every phase, whatever the reports contain, and artifact
    validation can only fail on a missing artifact. *)
Theorem marker_resolves_everything fs phase :
  documented fs "plans/plan.md" "Security Mitigations" ∨
  documented fs "DECISIONS.md" "Security Finding Waiver" →
  findings_status fs phase = 0
  ∧ gate_status fs phase = (if bool_decide (Policy.missing fs phase = []) then 0 else 1).
Proof.
  intros H. apply mitigation_on_file_spec in H.
  assert (∀ rs, findings_verdict fs rs = 0) as Hv
    by (intros rs; unfold findings_verdict; by rewrite H, andb_false_r).
  split; [by rewrite findings_status_verdict |].
  case_bool_decide as Hm.
  - by rewrite gate_status_present.
  - by apply gate_status_missing.
Qed.

Lemma marker_resolves_everything_witness :
  findings_status Sample.plan_high_header_only "plan" = 0
  ∧ gate_status Sample.plan_high_header_only "plan" =
      (if bool_decide (Policy.missing Sample.plan_high_header_only "plan" = []) then 0 else 1).
Proof.
  apply (marker_resolves_everything Sample.plan_high_header_only "plan").
  left. apply file_has_spec. vm_compute. reflexivity.
Defined.

End HookFacts.

(** ** Further properties of the invoker and of the CI entry point *)

Section RuntimeFacts.

Import Hook Runtime.

Lemma yields_ext c fs s fs1 fs2 : yields c fs s fs1 → fs1 = fs2 → yields c fs s fs2.
Proof. by intros H <-. Qed.

Lemma yields_write f fs : yields (write f) fs 0 (f fs).
Proof. intros j. by eexists. Qed.

Lemma yields_record_event e fs : yields (record_event e) fs 0 fs.
Proof. intros j. by eexists. Qed.

Lemma yields_exit_with c fs : yields (exit_with c) fs c fs.
Proof. intros j. by eexists. Qed.

Lemma yields_seq a b fs fs1 s fs2 :
  yields a fs 0 fs1 → yields b fs1 s fs2 → yields (a >>> b) fs s fs2.
Proof.
  intros Ha Hb j. destruct (Ha j) as [j1 E1]. destruct (Hb j1) as [j2 E2].
  exists j2. unfold and_then. by rewrite E1.
Qed.

Lemma yields_abort a b fs s fs1 : s ≠ 0 → yields a fs s fs1 → yields (a >>> b) fs s fs1.
Proof.
  intros Hs Ha j. destruct (Ha j) as [j1 E1]. exists j1.
  unfold and_then. rewrite E1. by rewrite (proj2 (Z.eqb_neq s 0)).
Qed.

Lemma yields_when (test : FS → bool) (a b : cmd) (fs : FS) s fs' :
  yields (if test fs then a else b) fs s fs' → yields (when_ test a b) fs s fs'.
Proof. intros H j. destruct (H j) as [j' E]. exists j'. unfold when_. simpl. by destruct (test fs). Qed.

Lemma yields_or_true h t path fs c :
  fs !! path = Some c → yields (or_true_to (run_tool h t) path) fs 0 fs.
Proof.
  intros Hc j. unfold or_true_to, run_tool, write. simpl.
  destruct (status_of h t =? 0); eexists; [done |].
  simpl. do 2 f_equal. unfold append_to. rewrite Hc. simpl.
  rewrite append_empty_r. by apply insert_id.
Qed.

Lemma yields_call s fs : yields (call s) fs (wait_status (s fs).1) (s fs).2.
Proof. intros j. unfold call. simpl. destruct (s fs). by eexists. Qed.

Lemma yields_at c fs s fs' j :
  yields c fs s fs' →
  (c {| files := fs; journal := j |}).1 = s ∧
  files (c {| files := fs; journal := j |}).2 = fs'.
Proof. intros H. destruct (H j) as [j' ->]. done. Qed.

Lemma yields_world c w s fs' :
  yields c (files w) s fs' → (c w).1 = s ∧ files (c w).2 = fs'.
Proof. destruct w as [fs j]. apply yields_at. Qed.

Lemma append_to_insert p c t (fs : FS) : append_to p t (<[p := c]> fs) = <[p := c +:+ t]> fs.
Proof. unfold append_to. by rewrite lookup_insert_eq, insert_insert_eq. Qed.

Lemma append_to_lookup p t (fs : FS) :
  append_to p t fs !! p = Some (default "" (fs !! p) +:+ t).
Proof. unfold append_to. by rewrite lookup_insert_eq. Qed.

Lemma append_to_twice p t1 t2 (fs : FS) :
  append_to p t2 (append_to p t1 fs) = append_to p (t1 +:+ t2) fs.
Proof. unfold append_to at 2 3. by rewrite append_to_insert, append_assoc. Qed.

Lemma is_file_insert_ne (fs : FS) p c q : q ≠ p → is_file (<[p := c]> fs) q = is_file fs q.
Proof. intros H. unfold is_file. by rewrite lookup_insert_ne. Qed.

Lemma is_file_append_ne (fs : FS) p t q : q ≠ p → is_file (append_to p t fs) q = is_file fs q.
Proof. apply is_file_insert_ne. Qed.

(** *** The audit scripts *)

Lemma yields_audit_js h fs :
  yields (audit_js h) fs 0 (<[outfile := js_section h fs]> fs).
Proof.
  unfold audit_js, js_section. cbv zeta.
  eapply yields_seq; [apply yields_write |].
  eapply yields_seq; [| apply yields_record_event].
  unfold truncate.
  destruct (on_path h "pnpm"); [| destruct (on_path h "npm")]; simpl negb; cbv iota.
  - eapply yields_seq; [apply yields_write |].
    apply yields_when. rewrite is_file_append_ne by done.
    rewrite is_file_insert_ne by done. simpl andb.
    destruct (is_file fs "pnpm-workspace.yaml").
    + eapply yields_ext.
      * eapply yields_seq; [apply yields_write |].
        eapply yields_or_true. apply append_to_lookup.
      * by rewrite append_to_twice, append_to_insert.
    + eapply yields_ext.
      * eapply yields_or_true. apply append_to_lookup.
      * by rewrite append_to_insert, append_empty_r.
  - eapply yields_ext.
    + eapply yields_seq; [apply yields_write |].
      apply yields_when. simpl andb. cbv iota.
      eapply yields_or_true. apply append_to_lookup.
    + by rewrite append_to_insert, append_empty_r.
  - eapply yields_ext.
    + eapply yields_seq; apply yields_write.
    + by rewrite append_to_twice, append_to_insert.
Qed.

Lemma yields_audit_rust h fs :
  yields (audit_rust h) fs 0 (append_to outfile (rust_section h) fs).
Proof.
  unfold audit_rust, rust_section.
  destruct (on_path h "cargo"); [destruct (on_path h "cargo-audit") |]; simpl negb; cbv iota.
  - eapply yields_ext.
    + eapply yields_seq; [apply yields_write |].
      eapply yields_seq; [| apply yields_record_event].
      eapply yields_or_true. apply append_to_lookup.
    + by rewrite append_empty_r.
  - eapply yields_ext.
    + eapply yields_seq; [apply yields_write |].
      eapply yields_seq; [apply yields_write | apply yields_record_event].
    + by rewrite append_to_twice.
  - eapply yields_ext.
    + eapply yields_seq; [apply yields_write |].
      eapply yields_seq; [apply yields_write | apply yields_exit_with].
    + by rewrite append_to_twice.
Qed.

Lemma yields_audit_python h fs :
  yields (audit_python h) fs 0 (append_to outfile (python_section h fs) fs).
Proof.
  unfold audit_python, python_section.
  eapply yields_seq; [apply yields_write |].
  apply yields_when. rewrite !is_file_append_ne by done.
  destruct (negb (is_file fs "pyproject.toml") && negb (is_file fs "requirements.txt"))%bool.
  - eapply yields_ext.
    + eapply yields_seq; [apply yields_write | apply yields_exit_with].
    + by rewrite append_to_twice.
  - eapply yields_seq; [| apply yields_record_event].
    destruct (on_path h "pip-audit"); simpl negb; cbv iota.
    + eapply yields_ext; [eapply yields_or_true; apply append_to_lookup |].
      by rewrite append_empty_r.
    + eapply yields_ext; [apply yields_write |]. by rewrite append_to_twice.
Qed.

Lemma js_section_insert h (fs : FS) c : js_section h (<[outfile := c]> fs) = js_section h fs.
Proof. unfold js_section. by rewrite is_file_insert_ne. Qed.

Lemma python_section_insert h (fs : FS) c :
  python_section h (<[outfile := c]> fs) = python_section h fs.
Proof. unfold python_section. by rewrite !is_file_insert_ne. Qed.

Lemma yields_audits h fs :
  yields (audits h) fs 0
         (<[outfile := (js_section h fs +:+ rust_section h) +:+ python_section h fs]> fs).
Proof.
  unfold audits. eapply yields_ext.
  - eapply yields_seq; [eapply yields_seq; [apply yields_audit_js | apply yields_audit_rust] |].
    apply yields_audit_python.
  - rewrite !append_to_insert. by rewrite python_section_insert.
Qed.

Lemma audits_report_clean h fs :
  Text.grep_qi_severity ((js_section h fs +:+ rust_section h) +:+ python_section h fs) = false.
Proof.
  unfold js_section, rust_section, python_section.
  destruct (on_path h "pnpm"), (on_path h "npm"), (on_path h "cargo"),
    (on_path h "cargo-audit"), (on_path h "pip-audit"),
    (is_file fs "pnpm-workspace.yaml"), (is_file fs "pyproject.toml"),
    (is_file fs "requirements.txt"); vm_compute; reflexivity.
Qed.

End RuntimeFacts.

Section InvokerFacts.

Import Hook Runtime.

Lemma js_section_on_path h1 h2 fs :
  (∀ c, on_path h1 c = on_path h2 c) → js_section h1 fs = js_section h2 fs.
Proof. intros H. unfold js_section. by rewrite !H. Qed.

Lemma rust_section_on_path h1 h2 :
  (∀ c, on_path h1 c = on_path h2 c) → rust_section h1 = rust_section h2.
Proof. intros H. unfold rust_section. by rewrite !H. Qed.

Lemma python_section_on_path h1 h2 fs :
  (∀ c, on_path h1 c = on_path h2 c) → python_section h1 fs = python_section h2 fs.
Proof. intros H. unfold python_section. by rewrite !H. Qed.

Lemma rust_section_nonempty h : rust_section h ≠ "".
Proof.
  unfold rust_section. destruct (on_path h "cargo"), (on_path h "cargo-audit");
    vm_compute; discriminate.
Qed.

Lemma python_section_nonempty h fs : python_section h fs ≠ "".
Proof.
  unfold python_section.
  destruct (negb (is_file fs "pyproject.toml") && negb (is_file fs "requirements.txt"))%bool,
    (on_path h "pip-audit"); vm_compute; discriminate.
Qed.

(** A report of the spec or plan phase that is there and has no blocking
    line lets the phase pass. *)
Lemma exit_code_clean_plan h (fs : FS) text :
  fs !! "reports/security/plan-scan.md" = Some text →
  Text.grep_qi_severity text = false →
  exit_code h fs (Some "plan") = 0.
Proof.
  intros Hf Hg. rewrite exit_code_last_failure. simpl phase_of_argument.
  rewrite last_failure_gate; [| done | by apply validators_pass_outside].
  rewrite gate_status_verdict.
  unfold gate_verdict, missing_artifacts_for, note_missing, findings_verdict,
    has_blocking_finding, is_file.
  simpl. by rewrite Hf, Hg.
Qed.

Lemma exit_code_clean_spec h (fs : FS) text :
  fs !! "reports/security/spec-findings.md" = Some text →
  Text.grep_qi_severity text = false →
  exit_code h fs (Some "spec") = 0.
Proof.
  intros Hf Hg. rewrite exit_code_last_failure. simpl phase_of_argument.
  rewrite last_failure_gate; [| done | by apply validators_pass_outside].
  rewrite gate_status_verdict.
  unfold gate_verdict, missing_artifacts_for, note_missing, findings_verdict,
    has_blocking_finding, is_file.
  simpl. by rewrite Hf, Hg.
Qed.

Lemma exit_code_tasks_cases h fs :
  exit_code h fs (Some "tasks") =
    if ((is_file fs "requirements.txt" || is_file fs "pyproject.toml")
        && negb (is_file fs "reports/tests/tasks-unit-help.md"))%bool
    then 1 else 0.
Proof.
  rewrite exit_code_last_failure. simpl phase_of_argument.
  rewrite last_failure_gate; [| done | by apply validators_pass_outside].
  rewrite gate_status_verdict. unfold gate_verdict, missing_artifacts_for, note_missing.
  simpl. destruct (is_file fs "requirements.txt" || is_file fs "pyproject.toml")%bool;
    simpl; [| done].
  by destruct (is_file fs "reports/tests/tasks-unit-help.md").
Qed.

Lemma mode_of_idem var : mode_of (Some (mode_of var)) = mode_of var.
Proof.
  unfold mode_of. destruct var as [m|]; [| done].
  destruct (String.eqb_spec m "") as [-> | Hne]; [done |].
  by rewrite (proj2 (String.eqb_neq m "")).
Qed.

Lemma plugins_runtime_mode h var arg :
  plugins_runtime h (Some (mode_of var)) arg = plugins_runtime h var arg.
Proof. unfold plugins_runtime. by rewrite mode_of_idem. Qed.

(** The CI entry point ends as the hook does on the files the runtime
    left, whatever the runtime returned. *)
Lemma run_phase_checks_exit h var fs phase :
  phase ≠ "" →
  (CI.run_phase_checks h var fs (Some phase)).1 =
    exit_code h (files_after h var (Some phase) fs) (Some phase).
Proof.
  intros Hne. unfold CI.run_phase_checks, files_after, exit_code.
  cbv zeta. change (default "" (Some phase)) with phase.
  rewrite (proj2 (String.eqb_neq phase "")) by done.
  rewrite plugins_runtime_mode.
  match goal with |- context [lint_phase h ?fs' (Some phase)] =>
    destruct (lint_phase h fs' (Some phase)) as [c evs] end.
  destruct (c =? 0) eqn:E; simpl; [apply Z.eqb_eq in E; by subst | done].
Qed.

Lemma yields_claude_stub path title fs :
  yields (claude_stub path title) fs 0 (<[path := stub_text title]> fs).
Proof.
  unfold claude_stub, stub_text. eapply yields_ext.
  - eapply yields_seq; [eapply yields_seq |]; apply yields_write.
  - unfold truncate. by rewrite !append_to_insert.
Qed.

Lemma yields_claude h var fs phase path title :
  mode_of var = "claude" →
  (phase, path, title) ∈ claude_reports →
  yields (plugins_runtime h var (Some phase)) fs 0 (<[path := stub_text title]> fs).
Proof.
  intros Hm Hin. unfold plugins_runtime. rewrite Hm. cbv zeta.
  change (default "" (Some phase)) with phase.
  apply list_elem_of_In in Hin. simpl in Hin.
  destruct Hin as [[= <- <- <-] | [[= <- <- <-] | [[= <- <- <-] | [[= <- <- <-]
    | [[= <- <- <-] | []]]]]]; simpl.
  - unfold run_claude_spec, log.
    eapply yields_seq; [apply yields_record_event | apply yields_claude_stub].
  - apply yields_claude_stub.
  - apply yields_claude_stub.
  - apply yields_claude_stub.
  - apply yields_claude_stub.
Qed.

Lemma yields_run_cli_tasks fs :
  yields run_cli_tasks fs 0
    (if (is_file fs "pyproject.toml" || is_file fs "requirements.txt")%bool
     then <["reports/tests/tasks-unit-help.md" := unit_help_text]> fs else fs).
Proof.
  unfold run_cli_tasks. apply yields_when.
  destruct (is_file fs "pyproject.toml" || is_file fs "requirements.txt")%bool.
  - unfold python_unit_help.
    eapply yields_seq; [apply yields_write | apply yields_record_event].
  - apply yields_record_event.
Qed.

Lemma stub_text_clean title :
  In title ["# Spec Findings (from Claude plugins)"; "# Plan Scan (from Claude plugins)"] →
  Text.grep_qi_severity (stub_text title) = false.
Proof. intros [<- | [<- | []]]; vm_compute; reflexivity. Qed.

(** X8.  What the three audit scripts leave in the workspace does not
    depend on what the audit tools report: two hosts that have the same
    commands installed get the same files and status 0, whatever
    [pnpm audit], [npm audit], [cargo audit] and [pip-audit] return.  (Their
    output is not redirected into the report; only [true] is.) *)
Theorem audits_ignore_tool_results h1 h2 w :
  (∀ c, on_path h1 c = on_path h2 c) →
  (audits h1 w).1 = 0 ∧ (audits h2 w).1 = 0
  ∧ files (audits h1 w).2 = files (audits h2 w).2.
Proof.
  intros H.
  destruct (yields_world _ w _ _ (yields_audits h1 (files w))) as [-> ->].
  destruct (yields_world _ w _ _ (yields_audits h2 (files w))) as [-> ->].
  split_and!; [done | done |].
  by rewrite (js_section_on_path h1 h2), (rust_section_on_path h1 h2),
    (python_section_on_path h1 h2).
Qed.

Lemma audits_ignore_tool_results_witness :
  (audits Sample.quiet_host {| files := Case.python_project; journal := [] |}).1 = 0
  ∧ (audits Case.noisy_host {| files := Case.python_project; journal := [] |}).1 = 0
  ∧ files (audits Sample.quiet_host {| files := Case.python_project; journal := [] |}).2
    = files (audits Case.noisy_host {| files := Case.python_project; journal := [] |}).2.
Proof.
  apply (audits_ignore_tool_results Sample.quiet_host Case.noisy_host
           {| files := Case.python_project; journal := [] |}).
  reflexivity.
Defined.

(** X9.  The three audit scripts in a row replace
    [reports/security/plan-scan.md] wholesale and touch nothing else: what
    the report held before has no influence on the result, and every other
    path holds after what it held before. *)
Theorem audits_replace_report h w old :
  files (audits h {| files := <[outfile := old]> (files w); journal := journal w |}).2
    = files (audits h w).2
  ∧ is_Some (files (audits h w).2 !! outfile)
  ∧ (∀ q, q ≠ outfile → files (audits h w).2 !! q = files w !! q).
Proof.
  destruct (yields_world _ w _ _ (yields_audits h (files w))) as [_ ->].
  destruct (yields_world _ {| files := <[outfile := old]> (files w); journal := journal w |}
              _ _ (yields_audits h _)) as [_ ->].
  simpl. split_and!.
  - by rewrite js_section_insert, python_section_insert, insert_insert_eq.
  - rewrite lookup_insert_eq. by eexists.
  - intros q Hq. by rewrite lookup_insert_ne.
Qed.

(** X10.  The report the three audit scripts write never has a blocking
    line, on any host and in any workspace, so the plan phase of the hook
    passes on the files they leave. *)
Theorem audits_never_block h h' w :
  ∃ text, files (audits h w).2 !! outfile = Some text
          ∧ Text.grep_qi_severity text = false
          ∧ exit_code h' (files (audits h w).2) (Some "plan") = 0.
Proof.
  destruct (yields_world _ w _ _ (yields_audits h (files w))) as [_ ->].
  eexists. split_and!.
  - apply lookup_insert_eq.
  - apply audits_report_clean.
  - eapply exit_code_clean_plan; [apply lookup_insert_eq | apply audits_report_clean].
Qed.

(** X11.  Running the three audit scripts a second time changes nothing:
    [scripts/audit-js.sh] starts the report afresh, so the files after two
    runs are the files after one. *)
Theorem audits_idempotent h w :
  files (audits h (audits h w).2).2 = files (audits h w).2.
Proof.
  destruct (yields_world _ (audits h w).2 _ _ (yields_audits h _)) as [_ ->].
  destruct (yields_world _ w _ _ (yields_audits h (files w))) as [_ ->].
  by rewrite js_section_insert, python_section_insert, insert_insert_eq.
Qed.

(** X12.  On their own, [scripts/audit-rust.sh] and
    [scripts/audit-python.sh] only ever append: they end with 0 and leave
    the previous text of the report (the empty text when there was no
    report) followed by a non-empty section, so each further run makes the
    report longer. *)
Theorem audit_rust_python_append h w :
  (∃ section, section ≠ "" ∧ (audit_rust h w).1 = 0 ∧
     files (audit_rust h w).2 =
       <[outfile := default "" (files w !! outfile) +:+ section]> (files w))
  ∧ (∃ section, section ≠ "" ∧ (audit_python h w).1 = 0 ∧
     files (audit_python h w).2 =
       <[outfile := default "" (files w !! outfile) +:+ section]> (files w)).
Proof.
  split.
  - exists (rust_section h). split; [apply rust_section_nonempty |].
    apply (yields_world _ w _ _ (yields_audit_rust h (files w))).
  - exists (python_section h (files w)). split; [apply python_section_nonempty |].
    apply (yields_world _ w _ _ (yields_audit_python h (files w))).
Qed.

(** X13.  In claude mode each of the five phases ends with 0 and leaves
    exactly one file changed: the file of the phase holds the title line,
    an empty line and the placeholder line, whatever it held before. *)
Theorem claude_mode_writes_stub h var fs phase path title :
  mode_of var = "claude" →
  (phase, path, title) ∈ claude_reports →
  (plugins_runtime h var (Some phase) {| files := fs; journal := [] |}).1 = 0
  ∧ files_after h var (Some phase) fs = <[path := stub_text title]> fs.
Proof.
  intros Hm Hin. unfold files_after.
  apply (yields_at _ fs 0 _ []). by apply yields_claude.
Qed.

Lemma claude_mode_writes_stub_witness :
  (plugins_runtime Case.bare_host (Some "claude") (Some "analyze")
     {| files := Sample.analyze_with_label; journal := [] |}).1 = 0
  ∧ files_after Case.bare_host (Some "claude") (Some "analyze") Sample.analyze_with_label
    = <["reports/compliance/analyze-compliance.md" :=
          stub_text "# Compliance Report (from Claude plugins)"]> Sample.analyze_with_label.
Proof.
  apply (claude_mode_writes_stub Case.bare_host (Some "claude") Sample.analyze_with_label
           "analyze" "reports/compliance/analyze-compliance.md"
           "# Compliance Report (from Claude plugins)").
  - reflexivity.
  - apply list_elem_of_In. vm_compute. tauto.
Defined.

End InvokerFacts.

Section Composition.

Import Hook Runtime.

Lemma claude_files_after h var fs phase path title :
  mode_of var = "claude" →
  (phase, path, title) ∈ claude_reports →
  files_after h var (Some phase) fs = <[path := stub_text title]> fs.
Proof.
  intros Hm Hin. unfold files_after.
  apply (yields_at _ fs 0 _ []). by apply yields_claude.
Qed.

Ltac in_table := apply list_elem_of_In; simpl; tauto.

(** X14.  In claude mode the runtime consults neither a tool nor a
    producer script, so its result is the same on every host, and it ends
    with 0 exactly for the five phase names the hook gates and with 1 for
    any other name. *)
Theorem claude_mode_is_self_contained h1 h2 var arg w :
  mode_of var = "claude" →
  plugins_runtime h1 var arg w = plugins_runtime h2 var arg w
  ∧ (plugins_runtime h1 var arg w).1 = (if gated_phase (default "" arg) then 0 else 1).
Proof.
  intros Hm. unfold plugins_runtime, gated_phase. rewrite Hm. cbv zeta.
  change (String.eqb "claude" "claude") with true. cbv iota.
  split; [done |].
  destruct (String.eqb (default "" arg) "spec"); [done |].
  destruct (String.eqb (default "" arg) "plan"); [done |].
  destruct (String.eqb (default "" arg) "tasks"); [done |].
  destruct (String.eqb (default "" arg) "implement"); [done |].
  by destruct (String.eqb (default "" arg) "analyze").
Qed.

Lemma claude_mode_is_self_contained_witness :
  plugins_runtime Sample.quiet_host (Some "claude") (Some "deploy")
      {| files := Sample.after_plan; journal := [] |}
  = plugins_runtime Case.bare_host (Some "claude") (Some "deploy")
      {| files := Sample.after_plan; journal := [] |}
  ∧ (plugins_runtime Sample.quiet_host (Some "claude") (Some "deploy")
       {| files := Sample.after_plan; journal := [] |}).1
    = (if gated_phase (default "" (Some "deploy")) then 0 else 1).
Proof.
  apply (claude_mode_is_self_contained Sample.quiet_host Case.bare_host (Some "claude")
           (Some "deploy") {| files := Sample.after_plan; journal := [] |}).
  reflexivity.
Defined.

(** X15.  In claude mode the CI entry point always ends with 0 for the
    phases spec, plan and tasks: the runtime overwrites the file of the
    phase with its placeholder, the placeholder has no blocking line, and
    no validator runs in these phases; findings that were on file before
    are gone. *)
Theorem claude_placeholders_pass h var fs phase :
  mode_of var = "claude" →
  phase ∈ ["spec"; "plan"; "tasks"] →
  (CI.run_phase_checks h var fs (Some phase)).1 = 0.
Proof.
  intros Hm Hin. apply list_elem_of_In in Hin. simpl in Hin.
  destruct Hin as [<- | [<- | [<- | []]]]; rewrite run_phase_checks_exit by done.
  - rewrite (claude_files_after h var fs "spec" "reports/security/spec-findings.md"
               "# Spec Findings (from Claude plugins)" Hm) by in_table.
    eapply exit_code_clean_spec; [apply lookup_insert_eq |].
    apply stub_text_clean. simpl. auto.
  - rewrite (claude_files_after h var fs "plan" "reports/security/plan-scan.md"
               "# Plan Scan (from Claude plugins)" Hm) by in_table.
    eapply exit_code_clean_plan; [apply lookup_insert_eq |].
    apply stub_text_clean. simpl. auto.
  - rewrite (claude_files_after h var fs "tasks" "reports/tests/tasks-unit-help.md"
               "# Python Unit Testing Help (from Claude plugins)" Hm) by in_table.
    rewrite exit_code_tasks_cases.
    assert (is_file (<["reports/tests/tasks-unit-help.md" :=
                         stub_text "# Python Unit Testing Help (from Claude plugins)"]> fs)
              "reports/tests/tasks-unit-help.md" = true) as ->
      by (unfold is_file; by rewrite lookup_insert_eq).
    by rewrite andb_false_r.
Qed.

Lemma claude_placeholders_pass_witness :
  (CI.run_phase_checks Case.bare_host (Some "claude") Sample.plan_high (Some "plan")).1 = 0.
Proof.
  apply (claude_placeholders_pass Case.bare_host (Some "claude") Sample.plan_high "plan").
  - reflexivity.
  - apply list_elem_of_In. simpl. auto.
Defined.

(** X16.  The CI entry point ends with 0 for the tasks phase in every
    workspace, on every host and in either mode: the runtime and the hook
    look for the same two Python manifests, and the runtime writes
    the unit-test help itself when it finds one. *)
Theorem tasks_always_pass_ci h var fs :
  (CI.run_phase_checks h var fs (Some "tasks")).1 = 0.
Proof.
  destruct (String.eqb_spec (mode_of var) "claude") as [Hm | Hm].
  { rewrite run_phase_checks_exit by done. rewrite (claude_files_after h var fs "tasks" "reports/tests/tasks-unit-help.md"
               "# Python Unit Testing Help (from Claude plugins)" Hm) by in_table.
    rewrite exit_code_tasks_cases.
    assert (is_file (<["reports/tests/tasks-unit-help.md" :=
                         stub_text "# Python Unit Testing Help (from Claude plugins)"]> fs)
              "reports/tests/tasks-unit-help.md" = true) as ->
      by (unfold is_file; by rewrite lookup_insert_eq).
    by rewrite andb_false_r. }
  rewrite run_phase_checks_exit by done. unfold files_after, plugins_runtime.
  rewrite (proj2 (String.eqb_neq _ _) Hm). cbv zeta. simpl.
  rewrite (proj2 (yields_at _ fs 0 _ [] (yields_run_cli_tasks fs))).
  rewrite exit_code_tasks_cases.
  rewrite (orb_comm (is_file fs "pyproject.toml")).
  destruct (is_file fs "requirements.txt" || is_file fs "pyproject.toml")%bool eqn:E.
  - rewrite !is_file_insert_ne by done. rewrite E.
    assert (is_file (<["reports/tests/tasks-unit-help.md" := unit_help_text]> fs)
              "reports/tests/tasks-unit-help.md" = true) as ->
      by (unfold is_file; by rewrite lookup_insert_eq).
    done.
  - by rewrite E.
Qed.

(** X17.  In claude mode the runtime writes the compliance report for the
    analyze phase and never [reports/security/analyze-deltas.md], which the
    hook requires as well: on a workspace without that file the CI entry
    point ends with 1. *)
Theorem claude_analyze_needs_deltas h var fs :
  mode_of var = "claude" →
  fs !! "reports/security/analyze-deltas.md" = None →
  files_after h var (Some "analyze") fs !! "reports/security/analyze-deltas.md" = None
  ∧ (CI.run_phase_checks h var fs (Some "analyze")).1 = 1.
Proof.
  intros Hm Hnone. rewrite run_phase_checks_exit by done. rewrite (claude_files_after h var fs "analyze" "reports/compliance/analyze-compliance.md"
             "# Compliance Report (from Claude plugins)" Hm) by in_table.
  split; [by rewrite lookup_insert_ne |].
  rewrite exit_code_last_failure. simpl phase_of_argument.
  rewrite last_failure_gate; [| done | by apply validators_pass_outside].
  rewrite gate_status_verdict. unfold gate_verdict, missing_artifacts_for, note_missing.
  simpl. rewrite (is_file_insert_ne _ _ _ "reports/security/analyze-deltas.md") by done.
  rewrite (proj2 (is_file_false fs _) Hnone).
  by destruct (is_file _ "reports/compliance/analyze-compliance.md").
Qed.

Lemma claude_analyze_needs_deltas_witness :
  files_after Sample.quiet_host (Some "claude") (Some "analyze") Sample.after_plan
    !! "reports/security/analyze-deltas.md" = None
  ∧ (CI.run_phase_checks Sample.quiet_host (Some "claude") Sample.after_plan
       (Some "analyze")).1 = 1.
Proof.
  apply (claude_analyze_needs_deltas Sample.quiet_host (Some "claude") Sample.after_plan).
  - reflexivity.
  - vm_compute. reflexivity.
Defined.

(** X18.  [run_cli_implement] succeeds exactly when [run_cli_plan]
    succeeds and leaves a plan report; the implement report it then leaves
    is that plan report, text for text.  When [run_cli_plan] fails, the
    script ends there with its status and files: nothing is moved. *)
Theorem implement_report_is_plan_report h w :
  ((run_cli_implement h w).1 = 0 ↔
     (run_cli_plan h w).1 = 0 ∧
     is_Some (files (run_cli_plan h w).2 !! "reports/security/plan-scan.md"))
  ∧ ((run_cli_implement h w).1 = 0 →
     files (run_cli_implement h w).2 !! "reports/security/implement-scan.md"
     = files (run_cli_plan h w).2 !! "reports/security/plan-scan.md")
  ∧ ((run_cli_plan h w).1 ≠ 0 → run_cli_implement h w = run_cli_plan h w).
Proof.
  unfold run_cli_implement, and_then.
  destruct (run_cli_plan h w) as [c w']. simpl.
  destruct (c =? 0) eqn:E.
  - apply Z.eqb_eq in E as ->. unfold mv_f.
    destruct (files w' !! "reports/security/plan-scan.md") as [text|] eqn:Ef; simpl.
    + split_and!; [split; eauto | by rewrite lookup_insert_eq | done].
    + split_and!; [split; [done | by intros [_ [? ?]]] | done | done].
  - apply Z.eqb_neq in E. simpl. split_and!; [split; [done | by intros [? _]] | done | done].
Qed.

(** X19.  [run_cli_plan] ends with the status of [scripts/merge-audits.sh]
    and leaves the files that script leaves when started on the result of
    the three audit scripts: no failure of an audit tool, and no missing
    tool, fails the plan step. *)
Theorem plan_step_follows_merge h w :
  (run_cli_plan h w).1 = wait_status (merge_audits h (files (audits h w).2)).1
  ∧ files (run_cli_plan h w).2 = (merge_audits h (files (audits h w).2)).2.
Proof.
  destruct (yields_world _ w _ _ (yields_audits h (files w))) as [_ ->].
  change (run_cli_plan h) with (audits h >>> call (merge_audits h)).
  apply (yields_world _ w). eapply yields_seq; [apply yields_audits | apply yields_call].
Qed.

End Composition.
